(** * Cura360: the client-side data-access layer (patients, wounds, treatments)

    A shallow embedding of [src/js/patients.js], [src/js/wounds.js] and
    [src/js/treatments.js].  Each store function is an [async] JavaScript
    function that builds a plain record, sends one query through the
    Supabase query builder, and maps the [{data, error}] answer to a row,
    [null] or [[]], writing to the console and to the toast sink on the way.

    The development has these parts:
    - [JS]: the fragment of JavaScript the stores rely on (values, truthiness,
      [||], property access, [ToString], [parseInt], [Date.toISOString]);
    - [Supabase]: the fluent query builder and the [{data, error}] answer;
    - [Runtime]: a state-and-exception monad over the ambient objects
      ([window.CURA360.auth], [console], [showToast], the clock, the backend);
    - [Patients], [Wounds], [Treatments]: the stores, line by line;
    - [Contract] and [Stub]: what the stores expect of the backend, and an
      in-memory backend that meets it;
    - [Expected]: the right-hand sides of the properties;
    - the properties themselves, helper lemmas first. *)

From Stdlib Require Import ZArith NArith List String Ascii Bool Lia.
From Stdlib Require Import Decimal DecimalPos DecimalString Sorted.
Import ListNotations.

Set Implicit Arguments.
Set Warnings "-register-all".
Local Open Scope string_scope.
Local Open Scope Z_scope.

(* ================================================================= *)
(** ** The JavaScript fragment *)

Module JS.

(** Numbers.  [Int z] stands for the Number value of the mathematical
    integer [z] (exact for [|z| < 2^53]); fractional doubles are outside the
    fragment: no store computes with them and [-0] is identified with [0]. *)
Inductive number : Type :=
| NaN
| Infinity (negative : bool)
| Int (z : Z).

(** Values: primitives, arrays and plain objects.  An object is the list of
    its own properties in insertion order; the first binding of a key is
    the one a lookup sees. *)
Inductive value : Type :=
| JUndefined
| JNull
| JBool (b : bool)
| JNum (n : number)
| JStr (s : string)
| JArr (elems : list value)
| JObj (props : list (string * value)).

Definition object := list (string * value).

(** Exceptions the fragment can raise. *)
Inductive exn : Type :=
| TypeError (msg : string).

(** [ToBoolean]. *)
Definition truthy (v : value) : bool :=
  match v with
  | JUndefined | JNull => false
  | JBool b => b
  | JNum NaN => false
  | JNum (Int z) => negb (z =? 0)
  | JNum (Infinity _) => true
  | JStr s => negb (s =? "")%string
  | JArr _ | JObj _ => true
  end.

(** [a || b]. *)
Definition or_else (a b : value) : value :=
  if truthy a then a else b.

Infix "|||" := or_else (at level 50, left associativity).

(** Own-property lookup in a plain object. *)
Fixpoint lookup (k : string) (o : object) : option value :=
  match o with
  | [] => None
  | (k', v) :: rest => if (k =? k')%string then Some v else lookup k rest
  end.

(** [v.k] for a data property [k] that no built-in prototype defines (all
    the keys the stores read are of that kind): a [TypeError] on [undefined]
    and [null], the own property of an object, [undefined] otherwise. *)
Definition get (v : value) (k : string) : exn + value :=
  match v with
  | JUndefined => inl (TypeError ("Cannot read properties of undefined (reading '" ++ k ++ "')"))
  | JNull => inl (TypeError ("Cannot read properties of null (reading '" ++ k ++ "')"))
  | JObj o => inr (match lookup k o with Some x => x | None => JUndefined end)
  | _ => inr JUndefined
  end.

(** Field of a row, total: [undefined] when the row has no such property
    or is not an object. *)
Definition field (k : string) (v : value) : value :=
  match v with
  | JObj o => match lookup k o with Some x => x | None => JUndefined end
  | _ => JUndefined
  end.

(** [Number::toString] on the fragment. *)
Definition number_to_string (n : number) : string :=
  match n with
  | NaN => "NaN"
  | Infinity false => "Infinity"
  | Infinity true => "-Infinity"
  | Int z => NilZero.string_of_int (Z.to_int z)
  end.

Fixpoint join (sep : string) (l : list string) : string :=
  match l with
  | [] => ""
  | [s] => s
  | s :: rest => s ++ sep ++ join sep rest
  end.

(** [ToString]: a plain object prints as [[object Object]], an array as its
    elements joined by commas, [undefined] and [null] elements as nothing. *)
Fixpoint ToString (v : value) : string :=
  match v with
  | JUndefined => "undefined"
  | JNull => "null"
  | JBool true => "true"
  | JBool false => "false"
  | JNum n => number_to_string n
  | JStr s => s
  | JArr l =>
      join "," (map (fun x => match x with
                              | JUndefined | JNull => ""
                              | _ => ToString x
                              end) l)
  | JObj _ => "[object Object]"
  end.

(** [StrWhiteSpaceChar] among the code units below 256. *)
Definition is_white_space (c : ascii) : bool :=
  let n := nat_of_ascii c in
  ((9 <=? n) && (n <=? 13) || (n =? 32) || (n =? 160))%nat.

Fixpoint trim_start (s : string) : string :=
  match s with
  | String c rest => if is_white_space c then trim_start rest else s
  | EmptyString => s
  end.

(** Value of a digit character in radixes up to 36. *)
Definition digit_value (c : ascii) : option Z :=
  let n := Z.of_nat (nat_of_ascii c) in
  if (48 <=? n) && (n <=? 57) then Some (n - 48)
  else if (97 <=? n) && (n <=? 122) then Some (n - 87)
  else if (65 <=? n) && (n <=? 90) then Some (n - 55)
  else None.

(** The longest prefix of radix-[R] digits, read left to right; [None] when
    that prefix is empty. *)
Fixpoint read_digits (R : Z) (s : string) (acc : option Z) : option Z :=
  match s with
  | String c rest =>
      match digit_value c with
      | Some d =>
          if d <? R
          then read_digits R rest (Some (match acc with Some a => a * R + d | None => d end))
          else acc
      | None => acc
      end
  | EmptyString => acc
  end.

Definition ToInt32 (z : Z) : Z := (z + 2 ^ 31) mod 2 ^ 32 - 2 ^ 31.

Definition strip_hex_prefix (s : string) : option string :=
  match s with
  | String "0" (String c rest) =>
      if (Ascii.eqb c "x" || Ascii.eqb c "X")%bool then Some rest else None
  | _ => None
  end.

(** [parseInt(string, radix)], step by step as ECMA-262 gives it: trim,
    take the sign, settle the radix (only radix 0 and 16 strip a [0x]
    prefix), read the longest digit prefix, [NaN] when it is empty. *)
Definition parseInt (v : value) (radix : Z) : value :=
  let inputString := ToString v in
  let trimmed := trim_start inputString in
  let '(sign, body) :=
    match trimmed with
    | String "-" rest => (-1, rest)
    | String "+" rest => (1, rest)
    | _ => (1, trimmed)
    end in
  let R := ToInt32 radix in
  if negb (R =? 0) && ((R <? 2) || (36 <? R)) then JNum NaN
  else
    let stripPrefix := (R =? 0) || (R =? 16) in
    let R := if R =? 0 then 10 else R in
    let '(R, body) :=
      match (if stripPrefix then strip_hex_prefix body else None) with
      | Some rest => (16, rest)
      | None => (R, body)
      end in
    match read_digits R body None with
    | Some mathInt => JNum (Int (sign * mathInt))
    | None => JNum NaN
    end.

(** *** Dates

    A [Date] is its time value: milliseconds since the epoch, UTC. *)

Definition msPerDay : Z := 86400000.

Definition Day (t : Z) : Z := t / msPerDay.
Definition TimeWithinDay (t : Z) : Z := t mod msPerDay.

(** Year, month (1..12) and day of the month (1..31) of a day number in the
    proleptic Gregorian calendar, by 400-year eras starting on 1 March. *)
Definition civil_from_days (days : Z) : Z * Z * Z :=
  let z := days + 719468 in
  let era := z / 146097 in
  let doe := z mod 146097 in
  let yoe := (doe - doe / 1460 + doe / 36524 - doe / 146096) / 365 in
  let doy := doe - (365 * yoe + yoe / 4 - yoe / 100) in
  let mp := (5 * doy + 2) / 153 in
  let d := doy - (153 * mp + 2) / 5 + 1 in
  let m := if mp <? 10 then mp + 3 else mp - 9 in
  let y := yoe + era * 400 + (if m <=? 2 then 1 else 0) in
  (y, m, d).

Definition digit_char (d : Z) : ascii := ascii_of_nat (48 + Z.to_nat d).

(** The [width] low decimal digits of [n], zero-padded. *)
Fixpoint pad (width : nat) (n : Z) : string :=
  match width with
  | O => ""
  | S w => pad w (n / 10) ++ String (digit_char (n mod 10)) ""
  end.

Definition year_string (y : Z) : string :=
  if (0 <=? y) && (y <=? 9999) then pad 4 y
  else (if y <? 0 then "-" else "+") ++ pad 6 (Z.abs y).

(** [Date.prototype.toISOString]: [YYYY-MM-DDTHH:mm:ss.sssZ], with a signed
    six-digit year outside 0..9999. *)
Definition toISOString (t : Z) : string :=
  let '(y, m, d) := civil_from_days (Day t) in
  let ms := TimeWithinDay t in
  year_string y ++ "-" ++ pad 2 m ++ "-" ++ pad 2 d ++ "T"
    ++ pad 2 (ms / 3600000) ++ ":" ++ pad 2 (ms / 60000 mod 60) ++ ":"
    ++ pad 2 (ms / 1000 mod 60) ++ "." ++ pad 3 (ms mod 1000) ++ "Z".

End JS.

Import JS.

(* ================================================================= *)
(** ** The Supabase query builder

    [sb.from(t)] starts a query on table [t]; [insert], [select], [eq],
    [order] and [single] refine it; awaiting it sends it and yields a
    [{data, error}] pair.  The stores never look inside the client, so the
    builder is the record of what was asked and the backend is whatever
    answers it. *)

Module Supabase.

Inductive verb : Type :=
| Unset
| Select
| Insert (payload : value).

(** Modelled from the spec: the remote data-access client (section 6, "a
    fluent query-builder style interface returning a [{data, error}] result
    pair") is a collaborator outside the repository.  A query is the record
    of the builder calls made on it. *)
Record query : Type := Query {
  table : string;
  action : verb;
  columns : option string;          (* rows to hand back: [select(cols)] *)
  filters : list (string * value);  (* [eq(column, value)], conjoined *)
  ordering : list (string * bool);  (* [order(column, {ascending})] *)
  single_row : bool                 (* [single()] *)
}.

Definition from (t : string) : query :=
  Query t Unset None [] [] false.

Definition insert (payload : value) (q : query) : query :=
  Query (table q) (Insert payload) (columns q) (filters q) (ordering q) (single_row q).

(** After [insert], [select] asks for the inserted rows back; on a fresh
    builder it makes the query a read.  [select()] is [select("*")]. *)
Definition select (cols : string) (q : query) : query :=
  Query (table q)
        (match action q with Unset => Select | a => a end)
        (Some cols) (filters q) (ordering q) (single_row q).

Definition eq (column : string) (v : value) (q : query) : query :=
  Query (table q) (action q) (columns q) (filters q ++ [(column, v)])
        (ordering q) (single_row q).

Definition order (column : string) (ascending : bool) (q : query) : query :=
  Query (table q) (action q) (columns q) (filters q)
        (ordering q ++ [(column, ascending)]) (single_row q).

Definition single (q : query) : query :=
  Query (table q) (action q) (columns q) (filters q) (ordering q) true.

Record response : Type := Response {
  data : value;
  error : value
}.

(** The remote side: a state and what it answers to a query. *)
Class Backend (B : Type) : Type :=
  request : B -> query -> B * response.

End Supabase.

Import Supabase.

Notation "q |> f" := (f q) (at level 45, left associativity, only parsing).

(* ================================================================= *)
(** ** The runtime the stores run in *)

Module Runtime.

(** What a spy on the ambient objects records, in order: a query sent with
    the answer it got, a [console.error] call, a [showToast] call (with the
    arguments as passed: one for an error toast, two for a success). *)
Inductive event : Type :=
| Request (q : query) (r : response)
| ConsoleError (args : list value)
| Toast (args : list value).

(** Modelled from the spec: the collaborators of section 6 that live outside
    the repository, as the stores see them: the current-session accessor
    (returns the caller's identity or an absent value), the clock, the
    backend, and the journal the console and the notification sink write
    to. *)
Record world (B : Type) : Type := World {
  session : value;        (* what [auth.getCurrentUser()] returns *)
  clock : Z;              (* the time value [new Date()] reads *)
  server : B;             (* the backend behind [window.CURA360.supabase] *)
  journal : list event    (* events so far, oldest first *)
}.

(** How the promise of an [async] function settles. *)
Inductive completion (A : Type) : Type :=
| Fulfilled (a : A)
| Rejected (e : exn).

Arguments Rejected {A} e.

Definition M (B A : Type) : Type := world B -> completion A * world B.

Definition ret {B A} (a : A) : M B A := fun w => (Fulfilled a, w).

Definition bind {B A C} (m : M B A) (k : A -> M B C) : M B C :=
  fun w => match m w with
           | (Fulfilled a, w') => k a w'
           | (Rejected e, w') => (Rejected e, w')
           end.

Definition lift {B} (r : exn + value) : M B value :=
  fun w => match r with
           | inl e => (Rejected e, w)
           | inr v => (Fulfilled v, w)
           end.

Definition emit {B} (e : event) : M B unit :=
  fun w => (Fulfilled tt,
            World (session w) (clock w) (server w) (journal w ++ [e])).

Definition getCurrentUser {B} : M B value :=
  fun w => (Fulfilled (session w), w).

(** [new Date()]. *)
Definition new_Date {B} : M B Z :=
  fun w => (Fulfilled (clock w), w).

Definition console_error {B} (args : list value) : M B unit :=
  emit (ConsoleError args).

Definition showToast {B} (args : list value) : M B unit :=
  emit (Toast args).

(** [await q]: the backend answers and moves on; the spy notes both. *)
Definition await {B} `{Backend B} (q : query) : M B response :=
  fun w => let '(b, r) := request (server w) q in
           (Fulfilled r,
            World (session w) (clock w) b (journal w ++ [Request q r])).

End Runtime.

Import Runtime.

Declare Scope js_scope.
Delimit Scope js_scope with js.
Notation "x <- m ;; k" := (bind m (fun x => k))
  (at level 100, m at next level, right associativity) : js_scope.
Notation "m ;; k" := (bind m (fun _ => k))
  (at level 100, right associativity) : js_scope.
Notation "v @ k" := (lift (get v k)) (at level 40, no associativity) : js_scope.
Local Open Scope js_scope.

(* ================================================================= *)
(** ** [src/js/patients.js] *)

Module Patients.
Section Store.
Context {B : Type} `{Backend B}.

Definition create (data : value) : M B value :=
  user <- getCurrentUser ;;
  if negb (truthy user) then ret JNull else
  name <- data @ "name" ;;
  age <- data @ "age" ;;
  diagnosis <- data @ "diagnosis" ;;
  comorbidities <- data @ "comorbidities" ;;
  user_id <- user @ "id" ;;
  let payload := JObj [
    ("name",            name);
    ("age",             parseInt age 10);
    ("diagnosis",       diagnosis ||| JStr "");
    ("comorbidities",   comorbidities ||| JStr "");
    ("professional_id", user_id)
  ] in
  r <- await (from "patients" |> insert payload |> select "*" |> single) ;;
  let '{| data := row; error := error |} := r in
  if truthy error then
    console_error [JStr "[patients] create error:"; error] ;;
    showToast [JStr "Error al crear paciente."] ;;
    ret JNull
  else
    showToast [JStr "Paciente creado exitosamente."; JStr "success"] ;;
    ret row.

Definition list : M B value :=
  r <- await (from "patients" |> select "*" |> order "created_at" false) ;;
  let '{| data := data; error := error |} := r in
  if truthy error then
    console_error [JStr "[patients] list error:"; error] ;;
    showToast [JStr "Error al cargar pacientes."] ;;
    ret (JArr [])
  else
    ret (data ||| JArr []).

Definition getById (id : value) : M B value :=
  r <- await (from "patients" |> select "*" |> eq "id" id |> single) ;;
  let '{| data := data; error := error |} := r in
  if truthy error then
    console_error [JStr "[patients] getById error:"; error] ;;
    ret JNull
  else
    ret data.

End Store.
End Patients.

(* ================================================================= *)
(** ** [src/js/wounds.js] *)

Module Wounds.
Section Store.
Context {B : Type} `{Backend B}.

Definition create (patientId data : value) : M B value :=
  type <- data @ "type" ;;
  location <- data @ "location" ;;
  dimensions <- data @ "dimensions" ;;
  status <- data @ "status" ;;
  let payload := JObj [
    ("patient_id", patientId);
    ("type",       type ||| JStr "");
    ("location",   location ||| JStr "");
    ("dimensions", dimensions ||| JStr "");
    ("status",     status ||| JStr "active")
  ] in
  r <- await (from "wounds" |> insert payload |> select "*" |> single) ;;
  let '{| data := row; error := error |} := r in
  if truthy error then
    console_error [JStr "[wounds] create error:"; error] ;;
    showToast [JStr "Error al registrar herida."] ;;
    ret JNull
  else
    showToast [JStr "Herida registrada exitosamente."; JStr "success"] ;;
    ret row.

Definition listByPatient (patientId : value) : M B value :=
  r <- await (from "wounds" |> select "*" |> eq "patient_id" patientId
                |> order "created_at" false) ;;
  let '{| data := data; error := error |} := r in
  if truthy error then
    console_error [JStr "[wounds] listByPatient error:"; error] ;;
    ret (JArr [])
  else
    ret (data ||| JArr []).

Definition getById (woundId : value) : M B value :=
  r <- await (from "wounds" |> select "*" |> eq "id" woundId |> single) ;;
  let '{| data := data; error := error |} := r in
  if truthy error then
    console_error [JStr "[wounds] getById error:"; error] ;;
    ret JNull
  else
    ret data.

End Store.
End Wounds.

(* ================================================================= *)
(** ** [src/js/treatments.js] *)

Module Treatments.
Section Store.
Context {B : Type} `{Backend B}.

Definition create (woundId data : value) : M B value :=
  technique <- data @ "technique" ;;
  supplies <- data @ "supplies" ;;
  notes <- data @ "notes" ;;
  now <- new_Date ;;
  let payload := JObj [
    ("wound_id",   woundId);
    ("technique",  technique ||| JStr "");
    ("supplies",   supplies ||| JStr "");
    ("notes",      notes ||| JStr "");
    ("created_at", JStr (toISOString now))
  ] in
  r <- await (from "treatments" |> insert payload |> select "*" |> single) ;;
  let '{| data := row; error := error |} := r in
  if truthy error then
    console_error [JStr "[treatments] create error:"; error] ;;
    showToast [JStr "Error al registrar curación."] ;;
    ret JNull
  else
    showToast [JStr "Curación registrada exitosamente."; JStr "success"] ;;
    ret row.

Definition listByWound (woundId : value) : M B value :=
  r <- await (from "treatments" |> select "*" |> eq "wound_id" woundId
                |> order "created_at" false) ;;
  let '{| data := data; error := error |} := r in
  if truthy error then
    console_error [JStr "[treatments] listByWound error:"; error] ;;
    ret (JArr [])
  else
    ret (data ||| JArr []).

End Store.
End Treatments.


(* ================================================================= *)
(** ** Observing a call *)

Section Observing.
Context {B A : Type}.

(** How the call settles. *)
Definition result (m : M B A) (w : world B) : completion A := fst (m w).

(** What the spy recorded during the call, oldest first. *)
Definition trace (m : M B A) (w : world B) : list event :=
  skipn (List.length (journal w)) (journal (snd (m w))).

End Observing.

(** The backend answered some query of the call with an error. *)
Definition backend_failed (evs : list event) : Prop :=
  exists q r, In (Request q r) evs /\ truthy (error r) = true.

(** A failed call reported the way the claim has it: one query, the error
    on the console under the operation's tag, the toast [toast] if any,
    and [nothing] for the caller. *)
Definition reports_failure {B : Type} (m : M B value) (w : world B)
  (ctx : string) (toast : option string) (nothing : value) : Prop :=
  backend_failed (trace m w) ->
  result m w = Fulfilled nothing /\
  exists q r,
    truthy (error r) = true /\
    trace m w =
      Request q r :: ConsoleError [JStr ctx; error r] ::
      match toast with Some msg => [Toast [JStr msg]] | None => [] end.

(** The user was shown something. *)
Definition notified (evs : list event) : Prop :=
  exists args, In (Toast args) evs.

(** The queries a call sent. *)
Definition requests (evs : list event) : list query :=
  flat_map (fun e => match e with Request q _ => [q] | _ => [] end) evs.

(** The records a call asked to insert, with their tables. *)
Definition inserted (evs : list event) : list (string * value) :=
  flat_map (fun q => match action q with
                     | Insert payload => [(table q, payload)]
                     | _ => []
                     end) (requests evs).

(** A backend that is down: every query is answered with an error object. *)
#[export] Instance unreachable : Backend unit :=
  fun _ _ => (tt, Response JNull (JObj [("message", JStr "TypeError: Failed to fetch")])).

(* ================================================================= *)
(** ** What the stores expect of the backend, and a test double *)

Module Contract.

(** Structural equality of values, as a row filter decides it. *)
Fixpoint value_eqb (a b : value) : bool :=
  match a, b with
  | JUndefined, JUndefined => true
  | JNull, JNull => true
  | JBool x, JBool y => Bool.eqb x y
  | JNum NaN, JNum NaN => true
  | JNum (Infinity x), JNum (Infinity y) => Bool.eqb x y
  | JNum (Int x), JNum (Int y) => x =? y
  | JStr x, JStr y => (x =? y)%string
  | JArr xs, JArr ys =>
      (fix all2 (xs ys : list value) : bool :=
         match xs, ys with
         | [], [] => true
         | x :: xs', y :: ys' => value_eqb x y && all2 xs' ys'
         | _, _ => false
         end) xs ys
  | JObj xs, JObj ys =>
      (fix all2 (xs ys : list (string * value)) : bool :=
         match xs, ys with
         | [], [] => true
         | (k, x) :: xs', (l, y) :: ys' => (k =? l)%string && value_eqb x y && all2 xs' ys'
         | _, _ => false
         end) xs ys
  | _, _ => false
  end.

(** The order a sorted read uses on a column: values of one kind by their
    natural order (numbers with [NaN] last, strings by code unit, so ISO
    timestamps of one width chronologically), kinds apart, [null] and a
    missing column after everything else. *)
Definition rank (v : value) : Z :=
  match v with
  | JBool _ => 0
  | JNum _ => 1
  | JStr _ => 2
  | JArr _ => 3
  | JObj _ => 4
  | JNull => 5
  | JUndefined => 6
  end.

Definition number_key (n : number) : Z * Z :=
  match n with
  | Infinity true => (0, 0)
  | Int z => (1, z)
  | Infinity false => (2, 0)
  | NaN => (3, 0)
  end.

Definition number_leb (a b : number) : bool :=
  let '(ca, va) := number_key a in
  let '(cb, vb) := number_key b in
  (ca <? cb) || ((ca =? cb) && (va <=? vb)).

Definition value_leb (a b : value) : bool :=
  if rank a <? rank b then true
  else if rank b <? rank a then false
  else match a, b with
       | JBool x, JBool y => implb x y
       | JNum x, JNum y => number_leb x y
       | JStr x, JStr y => String.leb x y
       | _, _ => true
       end.

(** [r1] may come before [r2] under the [order(...)] clauses, the first
    clause deciding unless it ties. *)
Fixpoint row_leb (ord : list (string * bool)) (r1 r2 : value) : bool :=
  match ord with
  | [] => true
  | (column, ascending) :: rest =>
      let a := field column (if ascending then r1 else r2) in
      let b := field column (if ascending then r2 else r1) in
      if value_leb a b then (if value_leb b a then row_leb rest r1 r2 else true)
      else false
  end.

(** Most recent first: every row was created no earlier than each row that
    comes after it. *)
Definition newest_first (rows : list value) : Prop :=
  StronglySorted
    (fun r1 r2 => value_leb (field "created_at" r2) (field "created_at" r1) = true)
    rows.

(** [r1] may stand right before [r2] in an answer ordered by [ord]. *)
Definition precedes (ord : list (string * bool)) (r1 r2 : value) : Prop :=
  row_leb ord r1 r2 = true.

(** A row passes the [eq(...)] filters. *)
Definition passes (flt : list (string * value)) (row : value) : Prop :=
  Forall (fun cv => field (fst cv) row = snd cv) flt.

Definition passesb (flt : list (string * value)) (row : value) : bool :=
  forallb (fun cv => value_eqb (field (fst cv) row) (snd cv)) flt.

Section Laws.
Context (B : Type) `{Backend B}.

(** A read of many rows that reports no error hands back an array, or no
    value at all. *)
Definition reads_yield_arrays : Prop :=
  forall (b : B) (q : query),
    action q = Select -> single_row q = false ->
    let r := snd (request b q) in
    truthy (error r) = false ->
    data r = JNull \/ data r = JUndefined \/ exists rows, data r = JArr rows.

(** The rows of such an answer pass the filters of the query and come in
    the order it asked for. *)
Definition reads_honour_query : Prop :=
  forall (b : B) (q : query) (rows : list value),
    action q = Select -> single_row q = false ->
    let r := snd (request b q) in
    truthy (error r) = false ->
    data r = JArr rows ->
    Forall (passes (filters q)) rows /\
    Sorted (precedes (ordering q)) rows.

End Laws.

Arguments reads_yield_arrays B {_}.
Arguments reads_honour_query B {_}.

End Contract.

Import Contract.

Module Stub.

(** Modelled from the spec: the remote data-access client of section 6 is an
    external collaborator, absent from the repository; this is the test
    double section 8 asks for, "a stub backend that echoes inserted rows".
    It keeps the rows of every table in memory, gives an inserted record
    its server-assigned identity (section 3) and hands it back; a read
    filters by the [eq] clauses and sorts by the [order] clauses; [single]
    wants exactly one row. *)
Record db : Type := Db {
  rows : list (string * value);   (* table and row, oldest first *)
  next_id : Z
}.

Definition empty : db := Db [] 1.

Definition failure (code message : string) : response :=
  Response JNull (JObj [("code", JStr code); ("message", JStr message)]).

Definition rows_of (t : string) (d : db) : list value :=
  map snd (filter (fun tr => (fst tr =? t)%string) (rows d)).

Fixpoint insert_sorted (ord : list (string * bool)) (r : value) (l : list value)
  : list value :=
  match l with
  | [] => [r]
  | x :: rest => if row_leb ord r x then r :: l else x :: insert_sorted ord r rest
  end.

Definition sort (ord : list (string * bool)) (l : list value) : list value :=
  fold_right (insert_sorted ord) [] l.

Definition shape (q : query) (found : list value) : response :=
  if single_row q then
    match found with
    | [row] => Response row JNull
    | _ => failure "PGRST116" "JSON object requested, multiple (or no) rows returned"
    end
  else Response (JArr found) JNull.

Definition exec (d : db) (q : query) : db * response :=
  match action q with
  | Unset => (d, failure "400" "no operation")
  | Select =>
      let found := sort (ordering q) (filter (passesb (filters q)) (rows_of (table q) d)) in
      (d, shape q found)
  | Insert (JObj o) =>
      let row := JObj (("id", JNum (Int (next_id d))) :: o) in
      (Db (rows d ++ [(table q, row)]) (next_id d + 1),
       match columns q with
       | Some _ => shape q [row]
       | None => Response JNull JNull
       end)
  | Insert _ => (d, failure "400" "a record is expected")
  end.

(** Every identity handed out so far is below the counter. *)
Definition well_formed (d : db) : Prop :=
  Forall (fun tr => exists i, field "id" (snd tr) = JNum (Int i) /\ i < next_id d)
         (rows d).

End Stub.

#[export] Instance echoing : Backend Stub.db := Stub.exec.

(** Concrete worlds: nobody signed in and the backend down; a professional
    signed in at 2023-11-14T22:13:20.123Z, the backend down; the same
    professional in front of the empty stub. *)
Definition nurse : value :=
  JObj [("id", JStr "u-17"); ("email", JStr "ana@cura360.cl")].

Definition signed_out : world unit := World JNull 1700000000123 tt [].
Definition offline : world unit := World nurse 1700000000123 tt [].
Definition online : world Stub.db := World nurse 1700000000123 Stub.empty [].

(** A ward with two patients' wounds and some treatments already stored. *)
Definition ward : Stub.db :=
  Stub.Db [
    ("wounds", JObj [("id", JNum (Int 1)); ("patient_id", JStr "p1");
                     ("type", JStr "pressure ulcer"); ("status", JStr "active");
                     ("created_at", JStr "2024-03-01T09:30:00.000Z")]);
    ("wounds", JObj [("id", JNum (Int 2)); ("patient_id", JStr "p2");
                     ("type", JStr "burn"); ("status", JStr "active");
                     ("created_at", JStr "2024-03-02T11:00:00.000Z")]);
    ("wounds", JObj [("id", JNum (Int 3)); ("patient_id", JStr "p1");
                     ("type", JStr "venous ulcer"); ("status", JStr "healed");
                     ("created_at", JStr "2024-03-05T16:45:00.000Z")]);
    ("treatments", JObj [("id", JNum (Int 4)); ("wound_id", JNum (Int 1));
                         ("technique", JStr "debridement");
                         ("created_at", JStr "2024-03-01T10:00:00.000Z")]);
    ("treatments", JObj [("id", JNum (Int 5)); ("wound_id", JNum (Int 1));
                         ("technique", JStr "dressing change");
                         ("created_at", JStr "2024-03-03T10:00:00.000Z")])
  ] 6.

Definition at_ward : world Stub.db := World nurse 1700000000123 ward [].

(* ================================================================= *)
(** ** The records the stores are expected to send

    Names for the right-hand sides of the claims: the record each [create]
    should ask the backend to insert, read off the caller's arguments, and
    the exchange with the backend that the three [create]s share. *)

Module Expected.

Definition nullish (v : value) : bool :=
  match v with
  | JUndefined | JNull => true
  | _ => false
  end.

Definition is_array (v : value) : Prop := exists rows, v = JArr rows.

(** The call fulfils, with a value that satisfies [P]. *)
Definition fulfils_with {B : Type} (m : M B value) (w : world B)
  (P : value -> Prop) : Prop :=
  exists v, result m w = Fulfilled v /\ P v.

(** The integers a Number holds exactly ([Number.isSafeInteger]). *)
Definition safe_integer (z : Z) : Prop := Z.abs z <= 2 ^ 53 - 1.

Definition patient_record (user data : value) : value :=
  JObj [
    ("name",            field "name" data);
    ("age",             parseInt (field "age" data) 10);
    ("diagnosis",       field "diagnosis" data ||| JStr "");
    ("comorbidities",   field "comorbidities" data ||| JStr "");
    ("professional_id", field "id" user)
  ].

Definition wound_record (patientId data : value) : value :=
  JObj [
    ("patient_id", patientId);
    ("type",       field "type" data ||| JStr "");
    ("location",   field "location" data ||| JStr "");
    ("dimensions", field "dimensions" data ||| JStr "");
    ("status",     field "status" data ||| JStr "active")
  ].

Definition treatment_record (woundId data : value) (now : Z) : value :=
  JObj [
    ("wound_id",   woundId);
    ("technique",  field "technique" data ||| JStr "");
    ("supplies",   field "supplies" data ||| JStr "");
    ("notes",      field "notes" data ||| JStr "");
    ("created_at", JStr (toISOString now))
  ].

(** The world a call leaves behind: the backend moved to [b], the events
    [evs] added to the journal. *)
Definition after {B : Type} (w : world B) (b : B) (evs : list event) : world B :=
  World (session w) (clock w) b (journal w ++ evs).

(** The query every [create] sends for a record. *)
Definition insertion (tbl : string) (payload : value) : query :=
  from tbl |> insert payload |> select "*" |> single.

(** What a [create] leaves in the journal after sending [q] and getting
    [r], and what it hands to its caller. *)
Definition create_events (ctx fail ok : string) (q : query) (r : response)
  : list event :=
  Request q r ::
  (if truthy (error r)
   then [ConsoleError [JStr ctx; error r]; Toast [JStr fail]]
   else [Toast [JStr ok; JStr "success"]]).

Definition create_value (r : response) : value :=
  if truthy (error r) then JNull else data r.

(** The same for a read: [toast] is the message shown on failure, if any,
    [nothing] the empty result, [many] whether an array is expected. *)
Definition read_events (ctx : string) (toast : option string) (q : query)
  (r : response) : list event :=
  Request q r ::
  (if truthy (error r)
   then ConsoleError [JStr ctx; error r] ::
        match toast with Some m => [Toast [JStr m]] | None => [] end
   else []).

Definition read_value (many : bool) (r : response) : value :=
  if truthy (error r) then (if many then JArr [] else JNull)
  else if many then data r ||| JArr [] else data r.

(** A timestamp in the wire format: [YYYY-MM-DDTHH:mm:ss.sssZ], the year
    possibly in the signed six-digit form, every field within its range. *)
Definition is_digit (c : ascii) : bool :=
  let n := nat_of_ascii c in ((48 <=? n) && (n <=? 57))%nat.

Fixpoint number_of (s : string) (acc : Z) : option Z :=
  match s with
  | EmptyString => Some acc
  | String c rest =>
      if is_digit c then number_of rest (acc * 10 + Z.of_nat (nat_of_ascii c) - 48)
      else None
  end.

Definition between (lo hi : Z) (s : string) : bool :=
  match number_of s 0 with
  | Some n => (lo <=? n) && (n <=? hi)
  | None => false
  end.

(** The text starts, after white space and a sign, with a decimal digit:
    what makes an age "numeric" for [parseInt(_, 10)]. *)
Definition numeric (s : string) : bool :=
  match (match trim_start s with
         | String "-" rest | String "+" rest => rest
         | t => t
         end) with
  | String c _ => is_digit c
  | EmptyString => false
  end.

Definition is_iso_tail (s : string) : bool :=
  (String.length s =? 20)%nat &&
  (substring 0 1 s =? "-")%string && between 1 12 (substring 1 2 s) &&
  (substring 3 1 s =? "-")%string && between 1 31 (substring 4 2 s) &&
  (substring 6 1 s =? "T")%string && between 0 23 (substring 7 2 s) &&
  (substring 9 1 s =? ":")%string && between 0 59 (substring 10 2 s) &&
  (substring 12 1 s =? ":")%string && between 0 59 (substring 13 2 s) &&
  (substring 15 1 s =? ".")%string && between 0 999 (substring 16 3 s) &&
  (substring 19 1 s =? "Z")%string.

Definition is_iso_timestamp (s : string) : bool :=
  match s with
  | String c rest =>
      if (Ascii.eqb c "+" || Ascii.eqb c "-")%bool
      then between 0 999999 (substring 0 6 rest)
           && is_iso_tail (substring 6 (String.length rest - 6) rest)
      else between 0 9999 (substring 0 4 s)
           && is_iso_tail (substring 4 (String.length s - 4) s)
  | EmptyString => false
  end.

(** What every day of a 400-year era is checked for: the year of the era,
    the month and the day of the month [civil_from_days] derives from it
    are within their ranges. *)
Definition era_day_ok (doe : Z) : bool :=
  let yoe := (doe - doe / 1460 + doe / 36524 - doe / 146096) / 365 in
  let doy := doe - (365 * yoe + yoe / 4 - yoe / 100) in
  let mp := (5 * doy + 2) / 153 in
  let d := doy - (153 * mp + 2) / 5 + 1 in
  let m := if mp <? 10 then mp + 3 else mp - 9 in
  (0 <=? yoe) && (yoe <=? 399) && (1 <=? m) && (m <=? 12) && (1 <=? d) && (d <=? 31).

(** One step of the sweep over the era: the next day, and whether all
    days so far passed. *)
Definition sweep (check : Z -> bool) (s : Z * bool) : Z * bool :=
  (fst s + 1, snd s && check (fst s)).

(** The time values a [Date] can hold (ECMA-262, "time range"). *)
Definition valid_time (t : Z) : Prop := Z.abs t <= 8640000000000000.

End Expected.

Import Expected.

(* ================================================================= *)
(** ** Further notions

    What the properties beyond the claims are stated with. *)

Module Further.

(** The promise was rejected. *)
Definition rejects {B : Type} (m : M B value) (w : world B) : Prop :=
  exists e, result m w = Rejected e.

(** A [create] that went well: the caller gets the row the backend sent,
    and the journal holds the query and the success toast [msg], nothing
    on the console. *)
Definition reports_success {B : Type} (m : M B value) (w : world B)
  (msg : string) : Prop :=
  forall q r,
    In (Request q r) (trace m w) -> truthy (error r) = false ->
    result m w = Fulfilled (data r) /\
    trace m w = [Request q r; Toast [JStr msg; JStr "success"]].

(** A read that went well: the caller gets the data the backend sent (a
    list: or [[]] when that is falsy), and the journal holds the query
    alone. *)
Definition reads_quietly {B : Type} (m : M B value) (w : world B)
  (many : bool) : Prop :=
  forall q r,
    In (Request q r) (trace m w) -> truthy (error r) = false ->
    result m w = Fulfilled (if many then data r ||| JArr [] else data r) /\
    trace m w = [Request q r].

(** The property names of a record, in order. *)
Definition keys (v : value) : list string :=
  match v with
  | JObj o => map fst o
  | _ => []
  end.

(** Two values read the same under every key of [ks]. *)
Definition agree (ks : list string) (a b : value) : Prop :=
  forall k, In k ks -> field k a = field k b.

(** The world when the caller's clock shows [t]. *)
Definition tick {B : Type} (t : Z) (w : world B) : world B :=
  World (session w) t (server w) (journal w).

(** [a] stands somewhere before [b] in [l]. *)
Definition comes_before (a b : value) (l : list value) : Prop :=
  exists l1 l2 l3, l = (l1 ++ a :: l2 ++ b :: l3)%list.

(** The time values of the years 0000 to 9999, the ones [toISOString]
    prints with a four-digit year. *)
Definition four_digit_year (t : Z) : Prop :=
  -62167219200000 <= t <= 253402300799999.

(** A calendar date as one number, ordered like the date. *)
Definition date_key (ymd : Z * Z * Z) : Z :=
  let '(y, m, d) := ymd in (y * 13 + m) * 32 + d.

(** The key of the day [doe] of the era that starts on 0000-03-01. *)
Definition era_key (doe : Z) : Z := date_key (civil_from_days (doe - 719468)).

(** What every day of that era is checked for: the next day has a larger
    key. *)
Definition era_day_grows (doe : Z) : bool := era_key doe <? era_key (doe + 1).

(** A time value as one number, ordered like its date and time of day. *)
Definition stamp_key (t : Z) : Z :=
  date_key (civil_from_days (Day t)) * msPerDay + TimeWithinDay t.

(** Nothing after the digits counts: the text ends, or goes on with a
    character that is not a decimal digit. *)
Definition stops_here (rest : string) : Prop :=
  match rest with
  | String c _ => is_digit c = false
  | EmptyString => True
  end.

(** A text of white space only. *)
Definition blank (ws : string) : Prop :=
  forall c, In c (list_ascii_of_string ws) -> is_white_space c = true.

(** The row a record becomes once the server has given it the identity
    [i]: the record with [id] in front. *)
Definition with_id (i : Z) (record : value) : value :=
  match record with
  | JObj o => JObj (("id", JNum (Int i)) :: o)
  | _ => JNull
  end.

(** [row] is a record, carries the identity [id] (read as [row.id] is, a
    [TypeError] on [null]) and every field of [record]. *)
Definition echoes (record row id : value) : Prop :=
  nullish row = false /\
  get row "id" = inr id /\
  nullish id = false /\
  forall k, k <> "id" -> field k row = field k record.

(** The rows of a table that carry the identity [id]. *)
Definition carrying (id : value) (t : string) (d : Stub.db) : list value :=
  filter (passesb [("id", id)]) (Stub.rows_of t d).

End Further.

Import Further.

(* ================================================================= *)
(** * Properties *)

Unset Implicit Arguments.

(** ** The JavaScript fragment on examples *)

Example parseInt_42 : parseInt (JStr "  42px") 10 = JNum (Int 42).
Proof. reflexivity. Qed.
Example parseInt_neg : parseInt (JStr "-7.9") 10 = JNum (Int (-7)).
Proof. reflexivity. Qed.
Example parseInt_abc : parseInt (JStr "abc") 10 = JNum NaN.
Proof. reflexivity. Qed.
Example parseInt_undefined : parseInt JUndefined 10 = JNum NaN.
Proof. reflexivity. Qed.
Example parseInt_number : parseInt (JNum (Int 63)) 10 = JNum (Int 63).
Proof. reflexivity. Qed.
Example parseInt_hex : parseInt (JStr "0x1f") 16 = JNum (Int 31).
Proof. reflexivity. Qed.
Example parseInt_hex10 : parseInt (JStr "0x1f") 10 = JNum (Int 0).
Proof. reflexivity. Qed.
Example parseInt_arr : parseInt (JArr [JNum (Int 12); JNull; JStr "x"]) 10 = JNum (Int 12).
Proof. reflexivity. Qed.

Example iso_epoch : toISOString 0 = "1970-01-01T00:00:00.000Z".
Proof. reflexivity. Qed.
Example iso_leap : toISOString 951782400000 = "2000-02-29T00:00:00.000Z".
Proof. reflexivity. Qed.
Example iso_2023 : toISOString 1700000000123 = "2023-11-14T22:13:20.123Z".
Proof. reflexivity. Qed.
Example iso_before : toISOString (-1) = "1969-12-31T23:59:59.999Z".
Proof. reflexivity. Qed.
Example iso_max : toISOString 8640000000000000 = "+275760-09-13T00:00:00.000Z".
Proof. reflexivity. Qed.
Example iso_min : toISOString (-8640000000000000) = "-271821-04-20T00:00:00.000Z".
Proof. reflexivity. Qed.
Example iso_y0 : toISOString (-62167219200000) = "0000-01-01T00:00:00.000Z".
Proof. reflexivity. Qed.
Example iso_y9999 : toISOString 253402300799999 = "9999-12-31T23:59:59.999Z".
Proof. reflexivity. Qed.

(** ** Running the stores *)

Section Running.
Context {B : Type} `{Backend B}.

Lemma trace_of_journal {A} (m : M B A) (w : world B) evs :
  journal (snd (m w)) = (journal w ++ evs)%list -> trace m w = evs.
Proof.
  unfold trace. intros ->.
  rewrite skipn_app, Nat.sub_diag, skipn_all. reflexivity.
Qed.

Lemma get_field (v : value) (k : string) :
  nullish v = false -> get v k = inr (field k v).
Proof. destruct v; simpl; intros E; try discriminate; reflexivity. Qed.

Lemma get_nullish (v : value) (k : string) :
  nullish v = true -> exists e, get v k = inl e.
Proof. destruct v; simpl; intros E; try discriminate; eauto. Qed.

Lemma create_tail_run (ctx fail ok : string) (q : query) (w : world B) :
  (r <- await q ;;
   let '{| data := row; error := error |} := r in
   if truthy error then
     console_error [JStr ctx; error] ;; showToast [JStr fail] ;; ret JNull
   else
     showToast [JStr ok; JStr "success"] ;; ret row) w
  = let r := snd (request (server w) q) in
    (Fulfilled (create_value r),
     after w (fst (request (server w) q)) (create_events ctx fail ok q r)).
Proof.
  unfold bind, await, console_error, showToast, emit, ret, after,
    create_value, create_events.
  destruct (request (server w) q) as [b [d e]]; simpl.
  destruct (truthy e); simpl; rewrite <- ?app_assoc; reflexivity.
Qed.

Lemma read_tail_run (ctx : string) (toast : option string) (many : bool)
  (q : query) (w : world B) :
  (r <- await q ;;
   let '{| data := data; error := error |} := r in
   if truthy error then
     console_error [JStr ctx; error] ;;
     match toast with
     | Some m => showToast [JStr m] ;; ret (if many then JArr [] else JNull)
     | None => ret (if many then JArr [] else JNull)
     end
   else
     ret (if many then data ||| JArr [] else data)) w
  = let r := snd (request (server w) q) in
    (Fulfilled (read_value many r),
     after w (fst (request (server w) q)) (read_events ctx toast q r)).
Proof.
  unfold bind, await, console_error, showToast, emit, ret, after,
    read_value, read_events.
  destruct (request (server w) q) as [b [d e]]; simpl.
  destruct (truthy e), toast, many; simpl; rewrite <- ?app_assoc; reflexivity.
Qed.

Lemma patients_create_run (w : world B) (data : value) :
  truthy (session w) = true -> nullish data = false ->
  let q := insertion "patients" (patient_record (session w) data) in
  let r := snd (request (server w) q) in
  Patients.create data w =
    (Fulfilled (create_value r),
     after w (fst (request (server w) q))
       (create_events "[patients] create error:" "Error al crear paciente."
          "Paciente creado exitosamente." q r)).
Proof.
  intros Hu Hd q r.
  assert (Hs : nullish (session w) = false) by (destruct (session w); easy).
  unfold Patients.create.
  unfold bind at 1. unfold getCurrentUser. rewrite Hu. cbn [negb].
  unfold lift. rewrite !(fun k => @get_field data k Hd), (@get_field _ "id" Hs).
  unfold bind at 1 2 3 4 5.
  apply (create_tail_run _ _ _ q w).
Qed.

Lemma patients_create_unauthenticated (w : world B) (data : value) :
  truthy (session w) = false -> Patients.create data w = (Fulfilled JNull, w).
Proof.
  intros Hu. unfold Patients.create, bind, getCurrentUser.
  rewrite Hu. reflexivity.
Qed.

Lemma patients_create_rejects (w : world B) (data : value) :
  truthy (session w) = true -> nullish data = true ->
  exists e, Patients.create data w = (Rejected e, w).
Proof.
  intros Hu Hd. destruct (get_nullish data "name" Hd) as [e He].
  exists e. unfold Patients.create, bind, getCurrentUser, lift.
  rewrite Hu, He. reflexivity.
Qed.

Lemma wounds_create_run (w : world B) (patientId data : value) :
  nullish data = false ->
  let q := insertion "wounds" (wound_record patientId data) in
  let r := snd (request (server w) q) in
  Wounds.create patientId data w =
    (Fulfilled (create_value r),
     after w (fst (request (server w) q))
       (create_events "[wounds] create error:" "Error al registrar herida."
          "Herida registrada exitosamente." q r)).
Proof.
  intros Hd q r. unfold Wounds.create, lift.
  rewrite !(fun k => @get_field data k Hd).
  unfold bind at 1 2 3 4.
  apply (create_tail_run _ _ _ q w).
Qed.

Lemma wounds_create_rejects (w : world B) (patientId data : value) :
  nullish data = true ->
  exists e, Wounds.create patientId data w = (Rejected e, w).
Proof.
  intros Hd. destruct (get_nullish data "type" Hd) as [e He].
  exists e. unfold Wounds.create, bind, lift. rewrite He. reflexivity.
Qed.

Lemma treatments_create_run (w : world B) (woundId data : value) :
  nullish data = false ->
  let q := insertion "treatments" (treatment_record woundId data (clock w)) in
  let r := snd (request (server w) q) in
  Treatments.create woundId data w =
    (Fulfilled (create_value r),
     after w (fst (request (server w) q))
       (create_events "[treatments] create error:" "Error al registrar curación."
          "Curación registrada exitosamente." q r)).
Proof.
  intros Hd q r. unfold Treatments.create, lift.
  rewrite !(fun k => @get_field data k Hd).
  unfold bind at 1 2 3 4. unfold new_Date.
  apply (create_tail_run _ _ _ q w).
Qed.

Lemma treatments_create_rejects (w : world B) (woundId data : value) :
  nullish data = true ->
  exists e, Treatments.create woundId data w = (Rejected e, w).
Proof.
  intros Hd. destruct (get_nullish data "technique" Hd) as [e He].
  exists e. unfold Treatments.create, bind, lift. rewrite He. reflexivity.
Qed.

Lemma patients_list_run (w : world B) :
  let q := from "patients" |> select "*" |> order "created_at" false in
  let r := snd (request (server w) q) in
  Patients.list w =
    (Fulfilled (read_value true r),
     after w (fst (request (server w) q))
       (read_events "[patients] list error:" (Some "Error al cargar pacientes.") q r)).
Proof. intros q r. apply (read_tail_run _ (Some _) true q w). Qed.

Lemma patients_getById_run (w : world B) (id : value) :
  let q := from "patients" |> select "*" |> eq "id" id |> single in
  let r := snd (request (server w) q) in
  Patients.getById id w =
    (Fulfilled (read_value false r),
     after w (fst (request (server w) q))
       (read_events "[patients] getById error:" None q r)).
Proof. intros q r. apply (read_tail_run _ None false q w). Qed.

Lemma wounds_listByPatient_run (w : world B) (patientId : value) :
  let q := from "wounds" |> select "*" |> eq "patient_id" patientId
             |> order "created_at" false in
  let r := snd (request (server w) q) in
  Wounds.listByPatient patientId w =
    (Fulfilled (read_value true r),
     after w (fst (request (server w) q))
       (read_events "[wounds] listByPatient error:" None q r)).
Proof. intros q r. apply (read_tail_run _ None true q w). Qed.

Lemma wounds_getById_run (w : world B) (woundId : value) :
  let q := from "wounds" |> select "*" |> eq "id" woundId |> single in
  let r := snd (request (server w) q) in
  Wounds.getById woundId w =
    (Fulfilled (read_value false r),
     after w (fst (request (server w) q))
       (read_events "[wounds] getById error:" None q r)).
Proof. intros q r. apply (read_tail_run _ None false q w). Qed.

Lemma treatments_listByWound_run (w : world B) (woundId : value) :
  let q := from "treatments" |> select "*" |> eq "wound_id" woundId
             |> order "created_at" false in
  let r := snd (request (server w) q) in
  Treatments.listByWound woundId w =
    (Fulfilled (read_value true r),
     after w (fst (request (server w) q))
       (read_events "[treatments] listByWound error:" None q r)).
Proof. intros q r. apply (read_tail_run _ None true q w). Qed.

End Running.


Section Facts.
Context {B : Type} `{Backend B}.

Lemma observe {A} (m : M B A) (w : world B) c b evs :
  m w = (c, after w b evs) -> result m w = c /\ trace m w = evs.
Proof.
  intros E. split.
  - unfold result. rewrite E. reflexivity.
  - apply trace_of_journal. rewrite E. reflexivity.
Qed.

Lemma observe_idle {A} (m : M B A) (w : world B) c :
  m w = (c, w) -> result m w = c /\ trace m w = [].
Proof.
  intros E. split.
  - unfold result. rewrite E. reflexivity.
  - apply trace_of_journal. rewrite E. simpl. symmetry. apply app_nil_r.
Qed.

Lemma no_failure_in_silence : ~ backend_failed [].
Proof. intros (q & r & [] & _). Qed.

Lemma create_events_failed ctx fail ok q r :
  backend_failed (create_events ctx fail ok q r) -> truthy (error r) = true.
Proof.
  unfold create_events. intros (q' & r' & Hin & Hr).
  destruct Hin as [E | Hin].
  - inversion E; subst. exact Hr.
  - destruct (truthy (error r)); simpl in Hin;
      repeat (destruct Hin as [E | Hin]; [discriminate E |]); destruct Hin.
Qed.

Lemma read_events_failed ctx toast q r :
  backend_failed (read_events ctx toast q r) -> truthy (error r) = true.
Proof.
  unfold read_events. intros (q' & r' & Hin & Hr).
  destruct Hin as [E | Hin].
  - inversion E; subst. exact Hr.
  - destruct (truthy (error r)), toast; simpl in Hin;
      repeat (destruct Hin as [E | Hin]; [discriminate E |]); destruct Hin.
Qed.

Lemma create_reports (m : M B value) (w : world B) b ctx fail ok q r :
  m w = (Fulfilled (create_value r), after w b (create_events ctx fail ok q r)) ->
  reports_failure m w ctx (Some fail) JNull.
Proof.
  intros E. pose proof E as O. apply observe in O. destruct O as [Hr Ht].
  unfold reports_failure. rewrite Hr, Ht. intros F.
  apply create_events_failed in F.
  unfold create_value, create_events. rewrite F. eauto.
Qed.

Lemma read_reports (m : M B value) (w : world B) b ctx toast many q r :
  m w = (Fulfilled (read_value many r), after w b (read_events ctx toast q r)) ->
  reports_failure m w ctx toast (if many then JArr [] else JNull).
Proof.
  intros E. pose proof E as O. apply observe in O. destruct O as [Hr Ht].
  unfold reports_failure. rewrite Hr, Ht. intros F.
  apply read_events_failed in F.
  unfold read_value, read_events. rewrite F. eauto.
Qed.

Lemma idle_reports (m : M B value) (w : world B) (c : completion value) ctx toast nothing :
  m w = (c, w) -> reports_failure m w ctx toast nothing.
Proof.
  intros E F. pose proof E as O. apply observe_idle in O. destruct O as [_ Ht].
  rewrite Ht in F. destruct (no_failure_in_silence F).
Qed.


Lemma patients_create_reports (w : world B) (data : value) :
  reports_failure (Patients.create data) w
    "[patients] create error:" (Some "Error al crear paciente.") JNull.
Proof.
  destruct (truthy (session w)) eqn:Hu.
  - destruct (nullish data) eqn:Hd.
    + destruct (patients_create_rejects w data Hu Hd) as [e E].
      eapply idle_reports; eauto.
    + eapply create_reports. apply (patients_create_run w data Hu Hd).
  - eapply idle_reports. apply (patients_create_unauthenticated w data Hu).
Qed.

Lemma wounds_create_reports (w : world B) (patientId data : value) :
  reports_failure (Wounds.create patientId data) w
    "[wounds] create error:" (Some "Error al registrar herida.") JNull.
Proof.
  destruct (nullish data) eqn:Hd.
  - destruct (wounds_create_rejects w patientId data Hd) as [e E].
    eapply idle_reports; eauto.
  - eapply create_reports. apply (wounds_create_run w patientId data Hd).
Qed.

Lemma treatments_create_reports (w : world B) (woundId data : value) :
  reports_failure (Treatments.create woundId data) w
    "[treatments] create error:" (Some "Error al registrar curación.") JNull.
Proof.
  destruct (nullish data) eqn:Hd.
  - destruct (treatments_create_rejects w woundId data Hd) as [e E].
    eapply idle_reports; eauto.
  - eapply create_reports. apply (treatments_create_run w woundId data Hd).
Qed.

End Facts.

Section Records.
Context {B : Type} `{Backend B}.

Lemma requests_create_events ctx fail ok q r :
  requests (create_events ctx fail ok q r) = [q].
Proof. unfold create_events. destruct (truthy (error r)); reflexivity. Qed.

Lemma inserted_create_events ctx fail ok tbl payload r :
  inserted (create_events ctx fail ok (insertion tbl payload) r) = [(tbl, payload)].
Proof. unfold inserted. rewrite requests_create_events. reflexivity. Qed.

Lemma or_else_truthy (v d : value) : truthy v = true -> v ||| d = v.
Proof. unfold or_else. intros ->. reflexivity. Qed.

Lemma or_else_falsy (v d : value) : truthy v = false -> v ||| d = d.
Proof. unfold or_else. intros ->. reflexivity. Qed.

End Records.

Section StubFacts.

Lemma stub_insert (d : Stub.db) (tbl : string) (o : object) :
  request d (insertion tbl (JObj o)) =
    (Stub.Db (Stub.rows d ++ [(tbl, JObj (("id", JNum (Int (Stub.next_id d))) :: o))])
             (Stub.next_id d + 1),
     Response (JObj (("id", JNum (Int (Stub.next_id d))) :: o)) JNull).
Proof. reflexivity. Qed.

Lemma field_after_id (k : string) (i : value) (o : object) :
  k <> "id" -> field k (JObj (("id", i) :: o)) = field k (JObj o).
Proof.
  intros Hk. simpl. destruct (String.eqb_spec k "id") as [E | _]; [contradiction | reflexivity].
Qed.

End StubFacts.

Section Reads.
Context {B : Type} `{Backend B}.

Lemma read_many_is_defined (r : response) : nullish (read_value true r) = false.
Proof.
  unfold read_value, or_else. destruct (truthy (error r)); [reflexivity |].
  destruct (truthy (data r)) eqn:T; [| reflexivity].
  destruct (data r); [discriminate T | discriminate T | reflexivity..].
Qed.

Lemma read_many_is_array (r : response) :
  (truthy (error r) = false ->
   data r = JNull \/ data r = JUndefined \/ exists rows, data r = JArr rows) ->
  is_array (read_value true r).
Proof.
  unfold read_value, is_array. intros L. destruct (truthy (error r)).
  - exists []. reflexivity.
  - destruct (L eq_refl) as [E | [E | [rows E]]]; rewrite E.
    + exists []. reflexivity.
    + exists []. reflexivity.
    + exists rows. reflexivity.
Qed.

Lemma read_many_of_nothing ctx toast q r q' r' :
  In (Request q' r') (read_events ctx toast q r) ->
  truthy (error r') = false -> nullish (data r') = true ->
  read_value true r = JArr [].
Proof.
  unfold read_events. intros Hin He Hn.
  assert (r' = r) as ->.
  { destruct Hin as [E | Hin]; [inversion E; reflexivity |].
    destruct (truthy (error r)), toast; simpl in Hin;
      repeat (destruct Hin as [E | Hin]; [discriminate E |]); destruct Hin. }
  unfold read_value. rewrite He.
  destruct (data r); try discriminate Hn; reflexivity.
Qed.

End Reads.

(* ----------------------------------------------------------------- *)
Section Values.

(** Induction over values that reaches inside arrays and objects. *)
Lemma value_induction (P : value -> Prop) :
  P JUndefined -> P JNull -> (forall b, P (JBool b)) -> (forall n, P (JNum n)) ->
  (forall s, P (JStr s)) ->
  (forall l, Forall P l -> P (JArr l)) ->
  (forall o, Forall (fun kv => P (snd kv)) o -> P (JObj o)) ->
  forall v, P v.
Proof.
  intros Hu Hn Hb Hnum Hs Ha Ho.
  fix IH 1. intros [ | | b | n | s | l | o].
  - exact Hu.
  - exact Hn.
  - apply Hb.
  - apply Hnum.
  - apply Hs.
  - apply Ha. induction l as [| x l IHl]; constructor; [apply IH | exact IHl].
  - apply Ho. induction o as [| [k x] o IHo]; constructor; [apply IH | exact IHo].
Qed.

Lemma value_eqb_eq (a b : value) : value_eqb a b = true -> a = b.
Proof.
  revert b. induction a as [ | | x | n | s | l IHl | o IHo] using value_induction;
    intros [ | | y | m | t | l' | o'];
    repeat match goal with n : number |- _ => destruct n end;
    simpl; try discriminate; try reflexivity.
  - intros E. apply Bool.eqb_prop in E. congruence.
  - intros E. apply Bool.eqb_prop in E. congruence.
  - intros E. apply Z.eqb_eq in E. congruence.
  - intros E. apply String.eqb_eq in E. congruence.
  - intros E. f_equal. revert l' E.
    induction IHl as [| x l Hx _ IH]; intros [| y l']; try discriminate; auto.
    intros E. apply andb_prop in E. destruct E as [E1 E2].
    f_equal; [apply Hx, E1 | apply IH, E2].
  - intros E. f_equal. revert o' E.
    induction IHo as [| [k x] o Hx _ IH]; intros [| [k' y] o']; try discriminate; auto.
    intros E. apply andb_prop in E. destruct E as [E1 E2].
    apply andb_prop in E1. destruct E1 as [Ek Ev].
    apply String.eqb_eq in Ek. simpl in Hx.
    f_equal; [f_equal; [exact Ek | apply Hx, Ev] | apply IH, E2].
Qed.

Lemma value_eqb_refl (a : value) : value_eqb a a = true.
Proof.
  induction a as [ | | x | n | s | l IHl | o IHo] using value_induction; simpl; auto.
  - apply Bool.eqb_reflx.
  - destruct n as [| x | x]; auto using Bool.eqb_reflx, Z.eqb_refl.
  - apply String.eqb_refl.
  - induction IHl as [| x l Hx _ IH]; auto. rewrite Hx, IH. reflexivity.
  - induction IHo as [| [k x] o Hx _ IH]; auto.
    simpl in Hx. rewrite String.eqb_refl, Hx, IH. reflexivity.
Qed.

Lemma passesb_passes (flt : list (string * value)) (row : value) :
  passesb flt row = true <-> passes flt row.
Proof.
  unfold passesb, passes. rewrite forallb_forall, Forall_forall.
  split; intros L cv Hin.
  - apply value_eqb_eq, L, Hin.
  - rewrite (L cv Hin). apply value_eqb_refl.
Qed.

Lemma number_leb_total (a b : number) : number_leb a b = true \/ number_leb b a = true.
Proof.
  unfold number_leb.
  destruct a as [| [|] | x], b as [| [|] | y]; simpl; auto.
  destruct (Z.leb_spec x y); [left | right]; auto. apply Z.leb_le. lia.
Qed.

Lemma value_leb_total (a b : value) : value_leb a b = true \/ value_leb b a = true.
Proof.
  unfold value_leb.
  destruct a as [ | | x | n | s | l | o], b as [ | | y | m | t | l' | o']; simpl; auto.
  - destruct x, y; auto.
  - apply number_leb_total.
  - apply String.leb_total.
Qed.

Lemma row_leb_total (ord : list (string * bool)) (r1 r2 : value) :
  row_leb ord r1 r2 = true \/ row_leb ord r2 r1 = true.
Proof.
  induction ord as [| [c asc] ord IH]; simpl; auto.
  destruct asc.
  - destruct (value_leb (field c r1) (field c r2)) eqn:E1,
             (value_leb (field c r2) (field c r1)) eqn:E2; auto.
    destruct (value_leb_total (field c r1) (field c r2)); congruence.
  - destruct (value_leb (field c r1) (field c r2)) eqn:E1,
             (value_leb (field c r2) (field c r1)) eqn:E2; auto.
    destruct (value_leb_total (field c r1) (field c r2)); congruence.
Qed.

Lemma string_leb_trans (a b c : string) :
  String.leb a b = true -> String.leb b c = true -> String.leb a c = true.
Proof.
  unfold String.leb. revert b c.
  induction a as [| x a IH]; intros [| y b] [| z c]; simpl; try easy.
  pose proof (IH b c) as IH'. unfold Ascii.compare.
  destruct (N.compare_spec (N_of_ascii x) (N_of_ascii y)),
           (N.compare_spec (N_of_ascii y) (N_of_ascii z)),
           (N.compare_spec (N_of_ascii x) (N_of_ascii z));
    first [exact IH' | easy | exfalso; lia].
Qed.

Lemma number_leb_trans (a b c : number) :
  number_leb a b = true -> number_leb b c = true -> number_leb a c = true.
Proof.
  unfold number_leb.
  destruct a as [| [|] | x], b as [| [|] | y], c as [| [|] | z]; simpl; try easy.
  rewrite !Z.leb_le. lia.
Qed.

Lemma value_leb_trans (a b c : value) :
  value_leb a b = true -> value_leb b c = true -> value_leb a c = true.
Proof.
  unfold value_leb.
  destruct a as [ | | x | n | s | l | o], b as [ | | y | m | t | l' | o'],
           c as [ | | z | k | u | l'' | o'']; simpl; try easy.
  - destruct x, y, z; easy.
  - apply number_leb_trans.
  - apply string_leb_trans.
Qed.

(** Under one descending clause, the row that may come first has the
    larger value in the column. *)
Lemma row_leb_descending (c : string) (r1 r2 : value) :
  row_leb [(c, false)] r1 r2 = true -> value_leb (field c r2) (field c r1) = true.
Proof.
  simpl. destruct (value_leb (field c r2) (field c r1)); auto.
Qed.


Lemma descending_is_newest_first (rows : list value) :
  Sorted (precedes [("created_at", false)]) rows -> newest_first rows.
Proof.
  intros S. apply Sorted_StronglySorted.
  - intros r1 r2 r3 H12 H23. exact (value_leb_trans _ _ _ H23 H12).
  - induction S as [| r l _ IH Hd]; constructor; [exact IH |].
    destruct Hd as [| r' l Hrr']; constructor.
    apply row_leb_descending, Hrr'.
Qed.

End Values.

Section Sorting.
Variable ord : list (string * bool).

Lemma insert_sorted_In (r x : value) (l : list value) :
  In x (Stub.insert_sorted ord r l) <-> x = r \/ In x l.
Proof.
  induction l as [| y l IH]; simpl.
  - intuition.
  - destruct (row_leb ord r y); simpl; [intuition | rewrite IH; intuition].
Qed.

Lemma sort_In (x : value) (l : list value) : In x (Stub.sort ord l) <-> In x l.
Proof.
  induction l as [| y l IH]; simpl; [reflexivity |].
  unfold Stub.sort in *. simpl. rewrite insert_sorted_In, IH. intuition.
Qed.

Lemma insert_sorted_HdRel (r x : value) (l : list value) :
  precedes ord x r -> HdRel (precedes ord) x l -> HdRel (precedes ord) x (Stub.insert_sorted ord r l).
Proof.
  intros Hxr Hl. destruct l as [| y l]; simpl.
  - constructor. exact Hxr.
  - destruct (row_leb ord r y); constructor; [exact Hxr |].
    inversion Hl; assumption.
Qed.

Lemma insert_sorted_Sorted (r : value) (l : list value) :
  Sorted (precedes ord) l -> Sorted (precedes ord) (Stub.insert_sorted ord r l).
Proof.
  induction 1 as [| y l Hs IH Hh]; simpl.
  - repeat constructor.
  - destruct (row_leb ord r y) eqn:E.
    + constructor; [constructor; assumption | constructor; exact E].
    + constructor; [exact IH |].
      apply insert_sorted_HdRel; [| exact Hh].
      destruct (row_leb_total ord r y) as [E' | E']; [congruence | exact E'].
Qed.

Lemma sort_Sorted (l : list value) : Sorted (precedes ord) (Stub.sort ord l).
Proof.
  induction l as [| y l IH]; [constructor |].
  apply insert_sorted_Sorted, IH.
Qed.

End Sorting.

Lemma stub_reads_yield_arrays : reads_yield_arrays Stub.db.
Proof.
  intros d q Ha Hs r _. subst r.
  unfold request, echoing, Stub.exec. rewrite Ha. simpl.
  unfold Stub.shape. rewrite Hs. simpl. eauto.
Qed.

Lemma stub_reads_honour_query : reads_honour_query Stub.db.
Proof.
  intros d q rows Ha Hs r _. subst r.
  unfold request, echoing, Stub.exec. rewrite Ha. simpl.
  unfold Stub.shape. rewrite Hs. simpl. intros E. inversion E; subst rows; clear E.
  split.
  - apply Forall_forall. intros row Hin.
    apply sort_In, filter_In in Hin. apply passesb_passes, Hin.
  - apply sort_Sorted.
Qed.

Section RoundTrip.

Lemma rows_of_app (t : string) (d : Stub.db) (tbl : string) (row : value) (n : Z) :
  Stub.rows_of t (Stub.Db (Stub.rows d ++ [(tbl, row)]) n) =
    (Stub.rows_of t d ++ (if (tbl =? t)%string then [row] else []))%list.
Proof.
  unfold Stub.rows_of. simpl. rewrite filter_app, map_app. simpl.
  destruct (tbl =? t)%string; reflexivity.
Qed.

(** No stored row carries the identity the counter is about to hand out. *)
Lemma fresh_id_is_unused (d : Stub.db) (t : string) :
  Stub.well_formed d ->
  filter (passesb [("id", JNum (Int (Stub.next_id d)))]) (Stub.rows_of t d) = [].
Proof.
  unfold Stub.well_formed, Stub.rows_of. intros W.
  induction (Stub.rows d) as [| [t' row] l IH]; [reflexivity |].
  inversion W as [| ? ? (i & Ei & Hi) W']; subst. simpl in *.
  destruct (t' =? t)%string; simpl; [| apply IH, W'].
  rewrite Ei. simpl.
  destruct (Z.eqb_spec i (Stub.next_id d)) as [E | _]; [lia |].
  simpl. apply IH, W'.
Qed.

Lemma stub_get_by_id (d : Stub.db) (tbl : string) (o : object) :
  Stub.well_formed d ->
  let row := JObj (("id", JNum (Int (Stub.next_id d))) :: o) in
  let d' := fst (request d (insertion tbl (JObj o))) in
  snd (request d' (from tbl |> select "*" |> eq "id" (field "id" row) |> single))
    = Response row JNull.
Proof.
  intros W row d'. subst d'. rewrite stub_insert. simpl fst.
  unfold request, echoing, Stub.exec. simpl action. cbv iota.
  simpl filters. simpl table. simpl ordering.
  rewrite rows_of_app, String.eqb_refl, filter_app.
  change (field "id" row) with (JNum (Int (Stub.next_id d))).
  rewrite (fresh_id_is_unused d tbl W). simpl filter.
  rewrite Z.eqb_refl. reflexivity.
Qed.

Lemma stub_list_by (d : Stub.db) (tbl col : string) (parent : value) (o : object) :
  col <> "id" -> lookup col o = Some parent ->
  let row := JObj (("id", JNum (Int (Stub.next_id d))) :: o) in
  let d' := fst (request d (insertion tbl (JObj o))) in
  exists rows,
    snd (request d' (from tbl |> select "*" |> eq col parent |> order "created_at" false))
      = Response (JArr rows) JNull /\
    In row rows.
Proof.
  intros Hc Hl row d'. subst d'. rewrite stub_insert. simpl fst.
  unfold request, echoing, Stub.exec. simpl action. cbv iota.
  eexists. split; [reflexivity |].
  apply sort_In, filter_In. split.
  - simpl table. rewrite rows_of_app, String.eqb_refl. apply in_or_app. right. left. reflexivity.
  - apply passesb_passes. repeat constructor.
    change (field col row = parent). subst row.
    rewrite (field_after_id col _ o Hc). simpl. rewrite Hl. reflexivity.
Qed.

Lemma stub_exec_well_formed (d : Stub.db) (q : query) :
  Stub.well_formed d -> Stub.well_formed (fst (Stub.exec d q)).
Proof.
  unfold Stub.well_formed, Stub.exec. intros W.
  destruct (action q) as [| | [ | | | | | | o]]; simpl; try exact W.
  apply Forall_app. split.
  - eapply Forall_impl; [| exact W]. intros tr (i & Ei & Hi). exists i. split; [exact Ei | lia].
  - repeat constructor. exists (Stub.next_id d). simpl. split; [reflexivity | lia].
Qed.

Lemma stub_empty_well_formed : Stub.well_formed Stub.empty.
Proof. constructor. Qed.

End RoundTrip.

Section StubStores.

Lemma stub_created (d : Stub.db) (tbl : string) (o : object) :
  create_value (snd (request d (insertion tbl (JObj o))))
    = JObj (("id", JNum (Int (Stub.next_id d))) :: o).
Proof. reflexivity. Qed.

Lemma stub_fetch (m : M Stub.db value) (w : world Stub.db) (tbl : string)
  (o : object) (evs : list event) (ctx : string) :
  Stub.well_formed (server w) ->
  let row := JObj (("id", JNum (Int (Stub.next_id (server w)))) :: o) in
  let w' := after w (fst (request (server w) (insertion tbl (JObj o)))) evs in
  let q := from tbl |> select "*" |> eq "id" (field "id" row) |> single in
  m w' = (Fulfilled (read_value false (snd (request (server w') q))),
          after w' (fst (request (server w') q))
            (read_events ctx None q (snd (request (server w') q)))) ->
  result m w' = Fulfilled row.
Proof.
  intros W row w' q E. apply observe in E. destruct E as [E _]. rewrite E.
  subst w' q row. unfold after. cbn [server].
  rewrite (stub_get_by_id _ tbl o W). reflexivity.
Qed.

Lemma stub_listing (m : M Stub.db value) (w : world Stub.db) (tbl col : string)
  (parent : value) (o : object) (evs : list event) (ctx : string) :
  col <> "id" -> lookup col o = Some parent ->
  let row := JObj (("id", JNum (Int (Stub.next_id (server w)))) :: o) in
  let w' := after w (fst (request (server w) (insertion tbl (JObj o)))) evs in
  let q := from tbl |> select "*" |> eq col parent |> order "created_at" false in
  m w' = (Fulfilled (read_value true (snd (request (server w') q))),
          after w' (fst (request (server w') q))
            (read_events ctx None q (snd (request (server w') q)))) ->
  exists rows, result m w' = Fulfilled (JArr rows) /\ In row rows.
Proof.
  intros Hc Hl row w' q E. apply observe in E. destruct E as [E _]. rewrite E.
  subst w' q. unfold after. cbn [server].
  destruct (stub_list_by (server w) tbl col parent o Hc Hl) as (rows & Er & Hin).
  rewrite Er. exists rows. split; [reflexivity | exact Hin].
Qed.

End StubStores.

Section ParseInt.

Lemma digit_value_table (c : ascii) :
  (if is_digit c
   then match digit_value c with
        | Some d => (0 <=? d) && (d <? 10) && (d =? Z.of_nat (nat_of_ascii c) - 48)
        | None => false
        end
   else match digit_value c with Some d => 10 <=? d | None => true end) = true.
Proof. destruct c as [[|] [|] [|] [|] [|] [|] [|] [|]]; vm_compute; reflexivity. Qed.

Lemma digit_value_decimal (c : ascii) :
  if is_digit c
  then exists d, digit_value c = Some d /\ 0 <= d < 10 /\ d = Z.of_nat (nat_of_ascii c) - 48
  else match digit_value c with Some d => 10 <= d | None => True end.
Proof.
  pose proof (digit_value_table c) as T.
  destruct (is_digit c), (digit_value c) as [d |]; try discriminate; try exact I.
  - exists d. apply andb_prop in T. destruct T as [T T3].
    apply andb_prop in T. destruct T as [T1 T2].
    apply Z.leb_le in T1. apply Z.ltb_lt in T2. apply Z.eqb_eq in T3. auto.
  - apply Z.leb_le, T.
Qed.

Lemma read_digits_continues (R : Z) (s : string) (a : Z) :
  exists z, read_digits R s (Some a) = Some z.
Proof.
  revert a. induction s as [| c s IH]; intros a; simpl; [eauto |].
  destruct (digit_value c) as [d |]; [| eauto].
  destruct (d <? R); [apply IH | eauto].
Qed.

Lemma read_digits_10_start (s : string) :
  match s with
  | String c _ => if is_digit c
                  then exists z, read_digits 10 s None = Some z
                  else read_digits 10 s None = None
  | EmptyString => read_digits 10 s None = None
  end.
Proof.
  destruct s as [| c s]; [reflexivity |].
  pose proof (digit_value_decimal c) as D. simpl.
  destruct (is_digit c).
  - destruct D as (d & -> & Hd & _).
    destruct (Z.ltb_spec d 10); [apply read_digits_continues | lia].
  - destruct (digit_value c) as [d |]; [| reflexivity].
    destruct (Z.ltb_spec d 10); [lia | reflexivity].
Qed.

Lemma parseInt_10_unfold (v : value) :
  parseInt v 10 =
    let '(sign, body) :=
      match trim_start (ToString v) with
      | String "-" rest => (-1, rest)
      | String "+" rest => (1, rest)
      | t => (1, t)
      end in
    match read_digits 10 body None with
    | Some mathInt => JNum (Int (sign * mathInt))
    | None => JNum NaN
    end.
Proof.
  unfold parseInt. change (ToInt32 10) with 10.
  destruct (trim_start (ToString v)) as [| c rest]; [reflexivity |].
  destruct c as [[|] [|] [|] [|] [|] [|] [|] [|]]; reflexivity.
Qed.

(** [parseInt(_, 10)] is [NaN] exactly on the texts that are not numeric. *)
Lemma parseInt_10_NaN (v : value) :
  parseInt v 10 = JNum NaN <-> numeric (ToString v) = false.
Proof.
  rewrite parseInt_10_unfold. unfold numeric.
  set (t := trim_start (ToString v)).
  assert (G : forall sign body,
             (match read_digits 10 body None with
              | Some mathInt => JNum (Int (sign * mathInt))
              | None => JNum NaN
              end = JNum NaN) <->
             match body with String c _ => is_digit c | EmptyString => false end = false).
  { intros sign body. pose proof (read_digits_10_start body) as S.
    destruct body as [| c rest].
    - rewrite S. tauto.
    - destruct (is_digit c).
      + destruct S as [z ->]. split; discriminate.
      + rewrite S. tauto. }
  destruct t as [| c rest]; [apply G |].
  destruct c as [[|] [|] [|] [|] [|] [|] [|] [|]]; apply G.
Qed.

End ParseInt.

Section Decimal.

Lemma read_decimal_acc (d : uint) (p : positive) :
  read_digits 10 (NilEmpty.string_of_uint d) (Some (Z.pos p))
    = Some (Z.pos (Pos.of_uint_acc d p)).
Proof.
  revert p. induction d as [| d IH | d IH | d IH | d IH | d IH | d IH | d IH | d IH | d IH | d IH];
    intros p; [reflexivity | ..];
    cbn -[Z.mul Z.add Pos.mul Pos.add digit_value Z.ltb]; rewrite <- IH;
    match goal with
    | |- context [digit_value ?c] =>
        let v := eval vm_compute in (digit_value c) in
        change (digit_value c) with v
    end; cbv iota beta;
    match goal with
    | |- context [?k <? 10] =>
        let v := eval vm_compute in (k <? 10) in change (k <? 10) with v
    end; cbv iota; do 2 f_equal; lia.
Qed.

Lemma read_decimal_zero (d : uint) :
  read_digits 10 (NilEmpty.string_of_uint d) (Some 0) = Some (Z.of_N (Pos.of_uint d)).
Proof.
  induction d as [| d IH | d IH | d IH | d IH | d IH | d IH | d IH | d IH | d IH | d IH];
    [reflexivity | exact IH | ..]; apply (read_decimal_acc d).
Qed.

Lemma read_decimal (d : uint) :
  d <> Nil ->
  read_digits 10 (NilEmpty.string_of_uint d) None = Some (Z.of_N (Pos.of_uint d)).
Proof.
  destruct d; intros Hd; [contradiction | apply (read_decimal_zero d) | ..];
    apply (read_decimal_acc d).
Qed.

Lemma decimal_starts_with_digit (d : uint) :
  d <> Nil ->
  trim_start (NilEmpty.string_of_uint d) = NilEmpty.string_of_uint d /\
  match NilEmpty.string_of_uint d with
  | String "-" _ | String "+" _ | EmptyString => False
  | _ => True
  end.
Proof. destruct d; intros Hd; [contradiction | ..]; split; first [reflexivity | exact I]. Qed.

Lemma parseInt_decimal (d : uint) (negative : bool) :
  d <> Nil ->
  parseInt (JStr ((if negative then "-" else "") ++ NilEmpty.string_of_uint d)) 10
    = JNum (Int ((if negative then -1 else 1) * Z.of_N (Pos.of_uint d))).
Proof.
  intros Hd. rewrite parseInt_10_unfold. cbn [ToString].
  destruct (decimal_starts_with_digit d Hd) as [T S].
  destruct negative; cbn [append].
  - cbn [trim_start is_white_space]. change (is_white_space "-") with false. cbv iota.
    rewrite (read_decimal d Hd). reflexivity.
  - rewrite T. pose proof (read_decimal d Hd) as R.
    destruct (NilEmpty.string_of_uint d) as [| c rest]; [destruct S |].
    destruct c as [[|] [|] [|] [|] [|] [|] [|] [|]];
      first [solve [destruct S] | cbv iota beta; rewrite R; reflexivity].
Qed.

(** [parseInt] gives an integer back unchanged, negative ones included. *)
Lemma parseInt_integer (z : Z) : parseInt (JNum (Int z)) 10 = JNum (Int z).
Proof.
  assert (N : forall p, NilZero.string_of_uint (Pos.to_uint p)
                        = NilEmpty.string_of_uint (Pos.to_uint p)).
  { intros p. pose proof (Unsigned.to_uint_nonnil p) as Hp.
    destruct (Pos.to_uint p); [contradiction | reflexivity..]. }
  destruct z as [| p | p].
  - reflexivity.
  - change (parseInt (JNum (Int (Z.pos p))) 10)
      with (parseInt (JStr ("" ++ NilZero.string_of_uint (Pos.to_uint p))) 10).
    rewrite N, (parseInt_decimal _ false (Unsigned.to_uint_nonnil p)), Unsigned.of_to.
    reflexivity.
  - change (parseInt (JNum (Int (Z.neg p))) 10)
      with (parseInt (JStr ("-" ++ NilZero.string_of_uint (Pos.to_uint p))) 10).
    rewrite N, (parseInt_decimal _ true (Unsigned.to_uint_nonnil p)), Unsigned.of_to.
    reflexivity.
Qed.

End Decimal.

Section Timestamps.

Lemma digit_char_decimal (x : Z) :
  0 <= x < 10 ->
  is_digit (digit_char x) = true /\
  Z.of_nat (nat_of_ascii (digit_char x)) - 48 = x /\
  (Ascii.eqb (digit_char x) "+" || Ascii.eqb (digit_char x) "-")%bool = false.
Proof.
  intros Hx.
  assert (C : x = 0 \/ x = 1 \/ x = 2 \/ x = 3 \/ x = 4 \/ x = 5 \/ x = 6 \/ x = 7
              \/ x = 8 \/ x = 9) by lia.
  repeat (destruct C as [-> | C]; [repeat split |]); subst; repeat split.
Qed.

Lemma number_of_app (s t : string) (acc : Z) :
  number_of (s ++ t) acc =
    match number_of s acc with Some a => number_of t a | None => None end.
Proof.
  revert acc. induction s as [| c s IH]; intros acc; simpl; [reflexivity |].
  destruct (is_digit c); [apply IH | reflexivity].
Qed.

Lemma number_of_pad (w : nat) (n acc : Z) :
  0 <= n ->
  number_of (pad w n) acc = Some (acc * 10 ^ Z.of_nat w + n mod 10 ^ Z.of_nat w).
Proof.
  revert n acc. induction w as [| w IH]; intros n acc Hn.
  - simpl. rewrite Z.mod_1_r. f_equal. lia.
  - cbn [pad]. rewrite number_of_app, IH by (apply Z.div_pos; lia).
    destruct (digit_char_decimal (n mod 10)) as (D & V & _);
      [apply Z.mod_pos_bound; lia |].
    cbn [number_of]. rewrite D. f_equal.
    rewrite Nat2Z.inj_succ, Z.pow_succ_r by lia.
    rewrite (Z.rem_mul_r n 10 (10 ^ Z.of_nat w)) by lia. lia.
Qed.

Lemma between_pad (w : nat) (n lo hi : Z) :
  0 <= n < 10 ^ Z.of_nat w -> lo <= n <= hi -> between lo hi (pad w n) = true.
Proof.
  intros Hn Hb. unfold between. rewrite number_of_pad by lia.
  rewrite Z.mod_small by lia. simpl.
  apply andb_true_intro. split; apply Z.leb_le; lia.
Qed.


Lemma sweep_sound (check : Z -> bool) (n : nat) :
  fst (Nat.iter n (sweep check) (0, true)) = Z.of_nat n /\
  (snd (Nat.iter n (sweep check) (0, true)) = true ->
   forall k, 0 <= k < Z.of_nat n -> check k = true).
Proof.
  induction n as [| n [F S]].
  - split; [reflexivity | intros _ k Hk; lia].
  - rewrite Nat.iter_succ. destruct (Nat.iter n (sweep check) (0, true)) as [i b].
    unfold sweep. cbn [fst snd] in *. subst i. split; [lia |].
    intros A k Hk. apply andb_prop in A. destruct A as [A1 A2].
    destruct (Z.eq_dec k (Z.of_nat n)) as [-> | Hne]; [exact A2 |].
    apply S; [exact A1 | lia].
Qed.

Lemma era_swept : snd (Pos.iter (sweep era_day_ok) (0, true) 146097) = true.
Proof. vm_cast_no_check (eq_refl true). Qed.

Lemma era_days_ok (doe : Z) : 0 <= doe < 146097 -> era_day_ok doe = true.
Proof.
  intros Hd. pose proof era_swept as E. rewrite Pos2Nat.inj_iter in E.
  apply (proj2 (sweep_sound era_day_ok (Pos.to_nat 146097)) E).
  rewrite positive_nat_Z. exact Hd.
Qed.

Lemma civil_bounds (days : Z) :
  let '(y, m, d) := civil_from_days days in
  1 <= m <= 12 /\ 1 <= d <= 31 /\
  400 * ((days + 719468) / 146097) <= y <= 400 * ((days + 719468) / 146097) + 400.
Proof.
  unfold civil_from_days.
  pose proof (era_days_ok ((days + 719468) mod 146097)
                (Z.mod_pos_bound (days + 719468) 146097 eq_refl)) as C.
  unfold era_day_ok in C. cbv zeta in *.
  set (doe := (days + 719468) mod 146097) in *.
  set (yoe := (doe - doe / 1460 + doe / 36524 - doe / 146096) / 365) in *.
  set (doy := doe - (365 * yoe + yoe / 4 - yoe / 100)) in *.
  set (mp := (5 * doy + 2) / 153) in *.
  set (d := doy - (153 * mp + 2) / 5 + 1) in *.
  set (m := if mp <? 10 then mp + 3 else mp - 9) in *.
  repeat (apply andb_prop in C; destruct C as [C ?]).
  repeat match goal with H : (_ <=? _) = true |- _ => apply Z.leb_le in H end.
  destruct (m <=? 2); lia.
Qed.


Lemma iso_tail_format (m d h mi sec ms : Z) :
  1 <= m <= 12 -> 1 <= d <= 31 -> 0 <= h <= 23 -> 0 <= mi <= 59 ->
  0 <= sec <= 59 -> 0 <= ms <= 999 ->
  is_iso_tail ("-" ++ pad 2 m ++ "-" ++ pad 2 d ++ "T" ++ pad 2 h ++ ":"
                 ++ pad 2 mi ++ ":" ++ pad 2 sec ++ "." ++ pad 3 ms ++ "Z") = true.
Proof.
  intros Hm Hd Hh Hmi Hs Hms.
  pose proof (between_pad 2 m 1 12 ltac:(simpl; lia) Hm) as Bm.
  pose proof (between_pad 2 d 1 31 ltac:(simpl; lia) Hd) as Bd.
  pose proof (between_pad 2 h 0 23 ltac:(simpl; lia) Hh) as Bh.
  pose proof (between_pad 2 mi 0 59 ltac:(simpl; lia) Hmi) as Bmi.
  pose proof (between_pad 2 sec 0 59 ltac:(simpl; lia) Hs) as Bs.
  pose proof (between_pad 3 ms 0 999 ltac:(simpl; lia) Hms) as Bms.
  unfold is_iso_tail.
  cbn [pad append substring String.length Nat.eqb andb String.eqb Ascii.eqb Bool.eqb] in *.
  rewrite Bm, Bd, Bh, Bmi, Bs, Bms. reflexivity.
Qed.


Lemma substring_nothing (s : string) : substring 0 0 s = "".
Proof. destruct s; reflexivity. Qed.

Lemma substring_everything (s : string) : substring 0 (String.length s) s = s.
Proof. induction s as [| c s IH]; simpl; [reflexivity | rewrite IH; reflexivity]. Qed.

Lemma iso_format_short (y : Z) (tail : string) :
  0 <= y <= 9999 -> is_iso_tail tail = true ->
  is_iso_timestamp (pad 4 y ++ tail) = true.
Proof.
  intros Hy Ht.
  pose proof (between_pad 4 y 0 9999 ltac:(simpl; lia) Hy) as By.
  destruct (digit_char_decimal (y / 10 / 10 / 10 mod 10)) as (_ & _ & Hc);
    [apply Z.mod_pos_bound; lia |].
  cbn [pad append] in *. unfold is_iso_timestamp. rewrite Hc.
  cbn [substring String.length Nat.sub].
  rewrite Nat.sub_0_r, substring_nothing, substring_everything, By, Ht. reflexivity.
Qed.

Lemma iso_format_long (negative : bool) (y : Z) (tail : string) :
  0 <= y <= 999999 -> is_iso_tail tail = true ->
  is_iso_timestamp ((if negative then "-" else "+") ++ pad 6 y ++ tail) = true.
Proof.
  intros Hy Ht.
  pose proof (between_pad 6 y 0 999999 ltac:(simpl; lia) Hy) as By.
  assert (E : is_iso_timestamp ((if negative then "-" else "+") ++ pad 6 y ++ tail)
              = between 0 999999 (substring 0 6 (pad 6 y ++ tail))
                && is_iso_tail (substring 6 (String.length (pad 6 y ++ tail) - 6)
                                  (pad 6 y ++ tail)))
    by (destruct negative; reflexivity).
  rewrite E. cbn [pad append] in *.
  cbn [substring String.length Nat.sub].
  rewrite Nat.sub_0_r, substring_nothing, substring_everything, By, Ht. reflexivity.
Qed.

(** Every time value a [Date] can hold prints in the wire format. *)
Lemma toISOString_format (t : Z) :
  valid_time t -> is_iso_timestamp (toISOString t) = true.
Proof.
  unfold valid_time. intros Ht. unfold toISOString.
  pose proof (civil_bounds (Day t)) as C.
  destruct (civil_from_days (Day t)) as [[y m] d]. destruct C as (Hm & Hd & Hy).
  assert (Hyear : -999999 <= y <= 999999).
  { unfold Day, msPerDay in Hy. Z.to_euclidean_division_equations. lia. }
  assert (Tail : is_iso_tail
                   ("-" ++ pad 2 m ++ "-" ++ pad 2 d ++ "T"
                      ++ pad 2 (TimeWithinDay t / 3600000) ++ ":"
                      ++ pad 2 (TimeWithinDay t / 60000 mod 60) ++ ":"
                      ++ pad 2 (TimeWithinDay t / 1000 mod 60) ++ "."
                      ++ pad 3 (TimeWithinDay t mod 1000) ++ "Z") = true).
  { apply iso_tail_format; try assumption;
      unfold TimeWithinDay, msPerDay; Z.to_euclidean_division_equations; lia. }
  unfold year_string.
  destruct ((0 <=? y) && (y <=? 9999)) eqn:Y.
  - apply andb_prop in Y. destruct Y as [Y1 Y2].
    apply Z.leb_le in Y1. apply Z.leb_le in Y2.
    apply iso_format_short; [lia | exact Tail].
  - destruct (Z.ltb_spec y 0).
    + apply (iso_format_long true); [lia | exact Tail].
    + apply (iso_format_long false); [lia | exact Tail].
Qed.

End Timestamps.

(* ================================================================= *)
(** * The claims *)

(* ----------------------------------------------------------------- *)

(** Claim C1.  With nobody signed in ([getCurrentUser()] returns [null],
    [undefined] or any other falsy value) [patients.create] fulfils with
    [null] whatever its argument, sends no query to the backend, shows no
    toast, and leaves the world exactly as it found it. *)
Theorem create_unauthenticated_is_silent :
  forall (B : Type) `{Backend B} (w : world B) (data : value),
    truthy (session w) = false ->
    result (Patients.create data) w = Fulfilled JNull /\
    requests (trace (Patients.create data) w) = [] /\
    ~ notified (trace (Patients.create data) w) /\
    snd (Patients.create data w) = w.
Proof.
  intros B H w data Hu.
  pose proof (patients_create_unauthenticated w data Hu) as E.
  pose proof E as O. apply observe_idle in O. destruct O as [Hr Ht].
  rewrite Hr, Ht, E. repeat split.
  intros (args & []).
Qed.

Lemma create_unauthenticated_is_silent_witness :
  truthy (session signed_out) = false /\
  result (Patients.create (JObj [("name", JStr "Ana"); ("age", JStr "71")])) signed_out
    = Fulfilled JNull.
Proof.
  split; [reflexivity |].
  apply (@create_unauthenticated_is_silent unit unreachable signed_out
           (JObj [("name", JStr "Ana"); ("age", JStr "71")])).
  reflexivity.
Defined.

(* ----------------------------------------------------------------- *)

(** Claim C2 as stated fails: an absent [name] is not defaulted to the
    empty string, the record carries [undefined]. *)
Lemma absent_name_is_not_defaulted :
  exists record,
    inserted (trace (Patients.create (JObj [("age", JStr "71")])) offline)
      = [("patients", record)] /\
    lookup "name" [("age", JStr "71")] = None /\
    field "name" record <> JStr "".
Proof.
  eexists. split; [reflexivity | split; [reflexivity | discriminate]].
Qed.

(** Claim C2, amended.  With a signed-in caller, [patients.create] asks to
    insert one record whose [age] is [parseInt(data.age, 10)], whose [name]
    is the input's [name] as it is ([undefined] when absent), whose
    [diagnosis] and [comorbidities] are defaulted to the empty string when
    absent, and whose [professional_id] is the current user's [id]; when
    the backend reports no error, [create] fulfils with the row the backend
    answered, and against the stub that echoes inserted rows that row
    carries every field of the record. *)
Theorem patient_record_and_row :
  (forall (B : Type) `{Backend B} (w : world B) (data : value),
     truthy (session w) = true -> nullish data = false ->
     let record := patient_record (session w) data in
     let r := snd (request (server w) (insertion "patients" record)) in
     inserted (trace (Patients.create data) w) = [("patients", record)] /\
     field "age" record = parseInt (field "age" data) 10 /\
     field "name" record = field "name" data /\
     (forall k, In k ["diagnosis"; "comorbidities"] ->
                field k data = JUndefined -> field k record = JStr "") /\
     field "professional_id" record = field "id" (session w) /\
     (truthy (error r) = false ->
      result (Patients.create data) w = Fulfilled (Supabase.data r))) /\
  (forall (w : world Stub.db) (data : value),
     truthy (session w) = true -> nullish data = false ->
     exists row,
       result (Patients.create data) w = Fulfilled row /\
       forall k, k <> "id" ->
                 field k row = field k (patient_record (session w) data)).
Proof.
  split.
  - intros B H w data Hu Hd record r.
    pose proof (patients_create_run w data Hu Hd) as E.
    apply observe in E. destruct E as [Hr Ht].
    split; [rewrite Ht; apply inserted_create_events |].
    split; [reflexivity |]. split; [reflexivity |].
    split; [| split; [reflexivity |]].
    + intros k Hk Ha.
      repeat (destruct Hk as [<- | Hk]; [cbn; rewrite Ha; reflexivity |]).
      destruct Hk.
    + intros Hok. rewrite Hr. unfold create_value. fold record. fold r.
      rewrite Hok. reflexivity.
  - intros w data Hu Hd.
    pose proof (patients_create_run w data Hu Hd) as E.
    apply observe in E. destruct E as [Hr _].
    unfold patient_record in *. rewrite stub_insert in Hr. 
    eexists. split; [exact Hr |].
    intros k Hk. apply field_after_id, Hk.
Qed.

Lemma patient_record_and_row_witness :
  truthy (session online) = true /\
  nullish (JObj [("name", JStr "Ana"); ("age", JStr "71")]) = false /\
  result (Patients.create (JObj [("name", JStr "Ana"); ("age", JStr "71")])) online
    = Fulfilled (JObj [("id", JNum (Int 1)); ("name", JStr "Ana"); ("age", JNum (Int 71));
                       ("diagnosis", JStr ""); ("comorbidities", JStr "");
                       ("professional_id", JStr "u-17")]).
Proof.
  split; [reflexivity | split; [reflexivity |]].
  exact (proj2 (proj2 (proj2 (proj2 (proj2
    (proj1 patient_record_and_row Stub.db echoing online
       (JObj [("name", JStr "Ana"); ("age", JStr "71")]) eq_refl eq_refl))))) eq_refl).
Defined.

(* ----------------------------------------------------------------- *)

(** Claim C3 as stated fails: with the backend down, [patients.getById]
    gets an error back, yet nothing reaches the toast sink. *)
Lemma read_failure_goes_unnotified :
  backend_failed (trace (Patients.getById (JStr "p-1")) offline) /\
  ~ notified (trace (Patients.getById (JStr "p-1")) offline).
Proof.
  split.
  - do 2 eexists. split; [left; reflexivity | reflexivity].
  - intros (args & [E | [E | []]]); discriminate E.
Qed.

(** Claim C3, amended.  Whenever the backend answers with an error, every
    operation of every store logs it on the console under its own tag
    ([[store] operation error:] followed by the error) and fulfils with the
    empty result ([null] from [create] and [getById], [[]] from the lists).
    A toast with a fixed Spanish message follows for the three [create]s
    and for [patients.list]; [getById], [listByPatient] and [listByWound]
    show none.  Nothing else happens: one query, one log line. *)
Theorem backend_errors_are_logged_and_absorbed :
  forall (B : Type) `{Backend B} (w : world B) (id data : value),
    reports_failure (Patients.create data) w
      "[patients] create error:" (Some "Error al crear paciente.") JNull /\
    reports_failure (Wounds.create id data) w
      "[wounds] create error:" (Some "Error al registrar herida.") JNull /\
    reports_failure (Treatments.create id data) w
      "[treatments] create error:" (Some "Error al registrar curación.") JNull /\
    reports_failure Patients.list w
      "[patients] list error:" (Some "Error al cargar pacientes.") (JArr []) /\
    reports_failure (Patients.getById id) w
      "[patients] getById error:" None JNull /\
    reports_failure (Wounds.listByPatient id) w
      "[wounds] listByPatient error:" None (JArr []) /\
    reports_failure (Wounds.getById id) w
      "[wounds] getById error:" None JNull /\
    reports_failure (Treatments.listByWound id) w
      "[treatments] listByWound error:" None (JArr []).
Proof.
  intros B H w id data.
  split; [apply patients_create_reports |].
  split; [apply wounds_create_reports |].
  split; [apply treatments_create_reports |].
  split; [eapply read_reports with (many := true); apply (patients_list_run w) |].
  split; [eapply read_reports with (many := false); apply (patients_getById_run w id) |].
  split; [eapply read_reports with (many := true); apply (wounds_listByPatient_run w id) |].
  split; [eapply read_reports with (many := false); apply (wounds_getById_run w id) |].
  eapply read_reports with (many := true); apply (treatments_listByWound_run w id).
Qed.

Lemma backend_errors_are_logged_and_absorbed_witness :
  backend_failed (trace Patients.list offline) /\
  result Patients.list offline = Fulfilled (JArr []).
Proof.
  assert (F : backend_failed (trace Patients.list offline)).
  { do 2 eexists. split; [left; reflexivity | reflexivity]. }
  split; [exact F |].
  destruct (@backend_errors_are_logged_and_absorbed unit unreachable offline JNull JNull)
    as (_ & _ & _ & L & _).
  exact (proj1 (L F)).
Defined.

(* ----------------------------------------------------------------- *)

(** Claim C4.  For each of the three stores and every argument, if the
    backend answered the insert with an error then [create] fulfils with
    [null]: the promise is never rejected on that path. *)
Theorem create_absorbs_backend_errors :
  forall (B : Type) `{Backend B} (w : world B) (parent data : value),
    (backend_failed (trace (Patients.create data) w) ->
     result (Patients.create data) w = Fulfilled JNull) /\
    (backend_failed (trace (Wounds.create parent data) w) ->
     result (Wounds.create parent data) w = Fulfilled JNull) /\
    (backend_failed (trace (Treatments.create parent data) w) ->
     result (Treatments.create parent data) w = Fulfilled JNull).
Proof.
  intros B H w parent data. repeat split; intros F.
  - exact (proj1 (patients_create_reports w data F)).
  - exact (proj1 (wounds_create_reports w parent data F)).
  - exact (proj1 (treatments_create_reports w parent data F)).
Qed.

Lemma create_absorbs_backend_errors_witness :
  backend_failed (trace (Wounds.create (JStr "p-1") (JObj [("type", JStr "venous ulcer")])) offline) /\
  result (Wounds.create (JStr "p-1") (JObj [("type", JStr "venous ulcer")])) offline
    = Fulfilled JNull.
Proof.
  assert (F : backend_failed
                (trace (Wounds.create (JStr "p-1") (JObj [("type", JStr "venous ulcer")])) offline)).
  { do 2 eexists. split; [left; reflexivity | reflexivity]. }
  split; [exact F |].
  exact (proj1 (proj2 (@create_absorbs_backend_errors unit unreachable offline (JStr "p-1")
                         (JObj [("type", JStr "venous ulcer")]))) F).
Defined.

(* ----------------------------------------------------------------- *)

(** Claim C5.  Against a backend that honours the queries it is sent,
    [listByPatient(id)] fulfils with an array of rows whose [patient_id] is
    [id], and [listByWound(id)] with an array of rows whose [wound_id] is
    [id], each most recent first: the [created_at] of a row is never below
    that of a row further down. *)
Theorem lists_are_scoped_and_newest_first :
  forall (B : Type) `{Backend B} (w : world B) (id : value),
    reads_yield_arrays B -> reads_honour_query B ->
    (exists rows,
       result (Wounds.listByPatient id) w = Fulfilled (JArr rows) /\
       Forall (fun row => field "patient_id" row = id) rows /\
       newest_first rows) /\
    (exists rows,
       result (Treatments.listByWound id) w = Fulfilled (JArr rows) /\
       Forall (fun row => field "wound_id" row = id) rows /\
       newest_first rows).
Proof.
  intros B H w id Larr Lq.
  assert (G : forall tbl col,
             let q := from tbl |> select "*" |> eq col id |> order "created_at" false in
             exists rows,
               read_value true (snd (request (server w) q)) = JArr rows /\
               Forall (fun row => field col row = id) rows /\ newest_first rows).
  { intros tbl col q.
    pose proof (Larr (server w) q eq_refl eq_refl) as A.
    pose proof (Lq (server w) q) as Q. cbv zeta in A, Q.
    unfold read_value. destruct (truthy (error (snd (request (server w) q)))).
    - exists []. repeat split; constructor.
    - destruct (A eq_refl) as [E | [E | [rows E]]]; rewrite E.
      + exists []. repeat split; constructor.
      + exists []. repeat split; constructor.
      + exists rows. destruct (Q rows eq_refl eq_refl eq_refl E) as [F S].
        split; [reflexivity | split].
        * eapply Forall_impl; [| exact F].
          intros row P. inversion P; subst. assumption.
        * apply descending_is_newest_first, S. }
  pose proof (wounds_listByPatient_run w id) as E1. apply observe in E1.
  pose proof (treatments_listByWound_run w id) as E2. apply observe in E2.
  destruct E1 as [R1 _], E2 as [R2 _]. rewrite R1, R2.
  split.
  - destruct (G "wounds" "patient_id") as (rows & E & F & S).
    exists rows. rewrite E. auto.
  - destruct (G "treatments" "wound_id") as (rows & E & F & S).
    exists rows. rewrite E. auto.
Qed.

Lemma lists_are_scoped_and_newest_first_witness :
  reads_yield_arrays Stub.db /\ reads_honour_query Stub.db /\
  exists rows,
    result (Wounds.listByPatient (JStr "p1")) at_ward = Fulfilled (JArr rows) /\
    Forall (fun row => field "patient_id" row = JStr "p1") rows /\
    newest_first rows.
Proof.
  split; [exact stub_reads_yield_arrays | split; [exact stub_reads_honour_query |]].
  exact (proj1 (@lists_are_scoped_and_newest_first Stub.db echoing at_ward (JStr "p1")
                  stub_reads_yield_arrays stub_reads_honour_query)).
Defined.

(* ----------------------------------------------------------------- *)

(** Claim C6.  For every [woundId] and every fields object,
    [treatments.create] asks to insert one record with [wound_id] bound to
    [woundId], with [technique], [supplies] and [notes] defaulted to the
    empty string when absent, and with [created_at] set by the caller to
    [new Date().toISOString()]: the clock of the caller, in the ISO wire
    format [YYYY-MM-DDTHH:mm:ss.sssZ]. *)
Theorem treatment_record_is_stamped_by_the_caller :
  forall (B : Type) `{Backend B} (w : world B) (woundId data : value),
    nullish data = false ->
    let record := treatment_record woundId data (clock w) in
    inserted (trace (Treatments.create woundId data) w) = [("treatments", record)] /\
    field "wound_id" record = woundId /\
    (forall k, In k ["technique"; "supplies"; "notes"] ->
               field k data = JUndefined -> field k record = JStr "") /\
    field "created_at" record = JStr (toISOString (clock w)) /\
    (valid_time (clock w) -> is_iso_timestamp (toISOString (clock w)) = true).
Proof.
  intros B H w woundId data Hd record.
  pose proof (treatments_create_run w woundId data Hd) as E.
  apply observe in E. destruct E as [_ Ht].
  split; [| split; [reflexivity | split; [| split; [reflexivity |]]]].
  - rewrite Ht. apply inserted_create_events.
  - intros k Hk Ha.
    repeat (destruct Hk as [<- | Hk]; [cbn; rewrite Ha; reflexivity |]).
    destruct Hk.
  - apply toISOString_format.
Qed.

Lemma treatment_record_is_stamped_by_the_caller_witness :
  nullish (JObj [("technique", JStr "debridement")]) = false /\
  valid_time (clock offline) /\
  inserted (trace (Treatments.create (JStr "w1") (JObj [("technique", JStr "debridement")])) offline)
    = [("treatments",
        JObj [("wound_id", JStr "w1"); ("technique", JStr "debridement");
              ("supplies", JStr ""); ("notes", JStr "");
              ("created_at", JStr "2023-11-14T22:13:20.123Z")])] /\
  is_iso_timestamp (toISOString (clock offline)) = true.
Proof.
  assert (V : valid_time (clock offline)) by (unfold valid_time; simpl; lia).
  split; [reflexivity | split; [exact V |]].
  pose proof (@treatment_record_is_stamped_by_the_caller unit unreachable offline
                (JStr "w1") (JObj [("technique", JStr "debridement")]) eq_refl) as T.
  split; [exact (proj1 T) | exact (proj2 (proj2 (proj2 (proj2 T))) V)].
Defined.

(* ----------------------------------------------------------------- *)

(** Claim C7 as stated fails: a status supplied as the empty string does
    not appear in the record, ["active"] does. *)
Lemma empty_status_is_not_kept :
  exists record,
    inserted (trace (Wounds.create (JStr "p1")
                       (JObj [("type", JStr "pressure ulcer"); ("status", JStr "")])) offline)
      = [("wounds", record)] /\
    lookup "status" [("type", JStr "pressure ulcer"); ("status", JStr "")] = Some (JStr "") /\
    field "status" record <> JStr "".
Proof.
  eexists. split; [reflexivity | split; [reflexivity | discriminate]].
Qed.

(** Claim C7, amended.  [wounds.create] asks to insert one record, with
    [patient_id] bound to [patientId], [status] defaulted to ["active"] and
    [type], [location], [dimensions] to the empty string when absent; a
    supplied value appears verbatim when it is truthy, and a falsy one (the
    empty string, [null], [0], ...) is replaced by the default like an
    absent one. *)
Theorem wound_record_defaults :
  forall (B : Type) `{Backend B} (w : world B) (patientId data : value),
    nullish data = false ->
    let record := wound_record patientId data in
    inserted (trace (Wounds.create patientId data) w) = [("wounds", record)] /\
    field "patient_id" record = patientId /\
    (field "status" data = JUndefined -> field "status" record = JStr "active") /\
    (forall k, In k ["type"; "location"; "dimensions"] ->
               field k data = JUndefined -> field k record = JStr "") /\
    (forall k, In k ["type"; "location"; "dimensions"; "status"] ->
               truthy (field k data) = true -> field k record = field k data) /\
    (truthy (field "status" data) = false -> field "status" record = JStr "active") /\
    (forall k, In k ["type"; "location"; "dimensions"] ->
               truthy (field k data) = false -> field k record = JStr "").
Proof.
  intros B H w patientId data Hd record.
  pose proof (wounds_create_run w patientId data Hd) as E.
  apply observe in E. destruct E as [_ Ht].
  split; [rewrite Ht; apply inserted_create_events |].
  split; [reflexivity |].
  split; [intros Ha; cbn; rewrite Ha; reflexivity |].
  split; [| split; [| split]].
  - intros k Hk Ha.
    repeat (destruct Hk as [<- | Hk]; [cbn; rewrite Ha; reflexivity |]).
    destruct Hk.
  - intros k Hk Ha.
    repeat (destruct Hk as [<- | Hk]; [cbn; apply or_else_truthy, Ha |]).
    destruct Hk.
  - intros Ha. cbn. apply or_else_falsy, Ha.
  - intros k Hk Ha.
    repeat (destruct Hk as [<- | Hk]; [cbn; apply or_else_falsy, Ha |]).
    destruct Hk.
Qed.

Lemma wound_record_defaults_witness :
  nullish (JObj [("type", JStr "pressure ulcer"); ("location", JStr "heel");
                 ("dimensions", JStr "2x3cm")]) = false /\
  inserted (trace (Wounds.create (JStr "p1")
                     (JObj [("type", JStr "pressure ulcer"); ("location", JStr "heel");
                            ("dimensions", JStr "2x3cm")])) offline)
    = [("wounds",
        JObj [("patient_id", JStr "p1"); ("type", JStr "pressure ulcer");
              ("location", JStr "heel"); ("dimensions", JStr "2x3cm");
              ("status", JStr "active")])].
Proof.
  split; [reflexivity |].
  exact (proj1 (@wound_record_defaults unit unreachable offline (JStr "p1")
                  (JObj [("type", JStr "pressure ulcer"); ("location", JStr "heel");
                         ("dimensions", JStr "2x3cm")]) eq_refl)).
Defined.

(* ----------------------------------------------------------------- *)

(** Claim C8.  Against the stub backend that stores and echoes inserted
    rows, every [create] fulfils with a record, the record it sent under a
    fresh identity, field for field; that very row is what [getById]
    fulfils with for its [id] (patients, wounds), and it is among the rows
    that [listByPatient] (wounds) and [listByWound] (treatments) fulfil
    with for its parent. *)
Theorem created_rows_are_retrievable :
  forall (w : world Stub.db) (parent data : value),
    Stub.well_formed (server w) -> nullish data = false ->
    (truthy (session w) = true ->
     exists row id w',
       Patients.create data w = (Fulfilled row, w') /\
       row = with_id (Stub.next_id (server w)) (patient_record (session w) data) /\
       echoes (patient_record (session w) data) row id /\
       result (Patients.getById id) w' = Fulfilled row) /\
    (exists row id w',
       Wounds.create parent data w = (Fulfilled row, w') /\
       row = with_id (Stub.next_id (server w)) (wound_record parent data) /\
       echoes (wound_record parent data) row id /\
       result (Wounds.getById id) w' = Fulfilled row /\
       exists rows,
         result (Wounds.listByPatient parent) w' = Fulfilled (JArr rows) /\ In row rows) /\
    (exists row id w',
       Treatments.create parent data w = (Fulfilled row, w') /\
       row = with_id (Stub.next_id (server w)) (treatment_record parent data (clock w)) /\
       echoes (treatment_record parent data (clock w)) row id /\
       exists rows,
         result (Treatments.listByWound parent) w' = Fulfilled (JArr rows) /\ In row rows).
Proof.
  intros w parent data W Hd.
  assert (Ec : forall o, echoes (JObj o)
                           (JObj (("id", JNum (Int (Stub.next_id (server w)))) :: o))
                           (JNum (Int (Stub.next_id (server w))))).
  { intros o. repeat split. intros k Hk. apply field_after_id, Hk. }
  split; [| split].
  - intros Hu.
    pose proof (patients_create_run w data Hu Hd) as E. cbv zeta in E.
    unfold patient_record in E. rewrite stub_created in E.
    do 3 eexists. split; [exact E |].
    split; [reflexivity |]. split; [apply Ec |].
    eapply stub_fetch; [exact W |]. apply patients_getById_run.
  - pose proof (wounds_create_run w parent data Hd) as E. cbv zeta in E.
    unfold wound_record in E. rewrite stub_created in E.
    do 3 eexists. split; [exact E |].
    split; [reflexivity |]. split; [apply Ec |]. split.
    + eapply stub_fetch; [exact W |]. apply wounds_getById_run.
    + eapply stub_listing with (col := "patient_id");
        [discriminate | reflexivity | apply wounds_listByPatient_run].
  - pose proof (treatments_create_run w parent data Hd) as E. cbv zeta in E.
    unfold treatment_record in E. rewrite stub_created in E.
    do 3 eexists. split; [exact E |].
    split; [reflexivity |]. split; [apply Ec |].
    eapply stub_listing with (col := "wound_id");
      [discriminate | reflexivity | apply treatments_listByWound_run].
Qed.

Lemma ward_well_formed : Stub.well_formed ward.
Proof.
  repeat constructor; eexists; (split; [reflexivity | reflexivity]).
Qed.

Lemma created_rows_are_retrievable_witness :
  Stub.well_formed (server at_ward) /\
  nullish (JObj [("name", JStr "Ana"); ("age", JStr "71")]) = false /\
  truthy (session at_ward) = true /\
  exists row id w',
    Patients.create (JObj [("name", JStr "Ana"); ("age", JStr "71")]) at_ward
      = (Fulfilled row, w') /\
    row = JObj [("id", JNum (Int 6)); ("name", JStr "Ana"); ("age", JNum (Int 71));
                ("diagnosis", JStr ""); ("comorbidities", JStr "");
                ("professional_id", JStr "u-17")] /\
    echoes (patient_record (session at_ward) (JObj [("name", JStr "Ana"); ("age", JStr "71")]))
           row id /\
    result (Patients.getById id) w' = Fulfilled row.
Proof.
  split; [exact ward_well_formed | split; [reflexivity | split; [reflexivity |]]].
  exact (proj1 (created_rows_are_retrievable at_ward JNull
                  (JObj [("name", JStr "Ana"); ("age", JStr "71")])
                  ward_well_formed eq_refl) eq_refl).
Defined.

(* ----------------------------------------------------------------- *)

(** Claim C9.  [patients.list], [wounds.listByPatient] and
    [treatments.listByWound] always fulfil, never with [null] or
    [undefined]; they fulfil with an array whenever the backend's reads of
    many rows answer with an array or with no value (anything else the
    client never hands over); and whatever the backend, an answer with no
    error and [null] or [undefined] data yields the empty array. *)
Theorem lists_are_always_arrays :
  forall (B : Type) `{Backend B} (w : world B) (id : value),
    (fulfils_with Patients.list w (fun v => nullish v = false) /\
     fulfils_with (Wounds.listByPatient id) w (fun v => nullish v = false) /\
     fulfils_with (Treatments.listByWound id) w (fun v => nullish v = false)) /\
    (reads_yield_arrays B ->
     fulfils_with Patients.list w is_array /\
     fulfils_with (Wounds.listByPatient id) w is_array /\
     fulfils_with (Treatments.listByWound id) w is_array) /\
    (forall q r, In (Request q r) (trace Patients.list w) ->
       truthy (error r) = false -> nullish (data r) = true ->
       result Patients.list w = Fulfilled (JArr [])) /\
    (forall q r, In (Request q r) (trace (Wounds.listByPatient id) w) ->
       truthy (error r) = false -> nullish (data r) = true ->
       result (Wounds.listByPatient id) w = Fulfilled (JArr [])) /\
    (forall q r, In (Request q r) (trace (Treatments.listByWound id) w) ->
       truthy (error r) = false -> nullish (data r) = true ->
       result (Treatments.listByWound id) w = Fulfilled (JArr [])).
Proof.
  intros B H w id. unfold fulfils_with.
  pose proof (patients_list_run w) as E1. apply observe in E1.
  pose proof (wounds_listByPatient_run w id) as E2. apply observe in E2.
  pose proof (treatments_listByWound_run w id) as E3. apply observe in E3.
  destruct E1 as [R1 T1], E2 as [R2 T2], E3 as [R3 T3].
  rewrite R1, R2, R3, T1, T2, T3.
  split; [repeat split | split; [intros L; repeat split | repeat split]].
  1-3: eexists; split; [reflexivity | apply read_many_is_defined].
  1-3: match goal with
       | |- exists _, Fulfilled (read_value true (snd (request ?b ?q))) = _ /\ _ =>
           eexists; split;
           [reflexivity | apply read_many_is_array, (L b q); reflexivity]
       end.
  all: intros q r Hin He Hn; f_equal; eapply read_many_of_nothing; eauto.
Qed.

Lemma lists_are_always_arrays_witness :
  reads_yield_arrays Stub.db /\ fulfils_with Patients.list at_ward is_array.
Proof.
  split; [exact stub_reads_yield_arrays |].
  exact (proj1 (proj1 (proj2 (@lists_are_always_arrays Stub.db echoing at_ward JNull))
                  stub_reads_yield_arrays)).
Defined.

(* ----------------------------------------------------------------- *)

(** Claim C10.  [patients.create] does not validate the age: with a
    signed-in caller it sends exactly one query, the insert of a record
    whose [age] is [parseInt(data.age, 10)]; when the input age is not
    numeric that is [NaN], and an integer age, negative ones included,
    that a Number holds exactly passes unchanged. *)
Theorem patient_age_is_not_validated :
  forall (B : Type) `{Backend B} (w : world B) (data : value),
    truthy (session w) = true -> nullish data = false ->
    let record := patient_record (session w) data in
    requests (trace (Patients.create data) w) = [insertion "patients" record] /\
    field "age" record = parseInt (field "age" data) 10 /\
    (numeric (ToString (field "age" data)) = false -> field "age" record = JNum NaN) /\
    (forall z, safe_integer z ->
               field "age" data = JNum (Int z) -> field "age" record = JNum (Int z)).
Proof.
  intros B H w data Hu Hd record.
  pose proof (patients_create_run w data Hu Hd) as E.
  apply observe in E. destruct E as [_ Ht].
  split; [rewrite Ht; apply requests_create_events |].
  split; [reflexivity |]. split.
  - intros Hn. apply parseInt_10_NaN, Hn.
  - intros z _ Hz. cbn. rewrite Hz. apply parseInt_integer.
Qed.

Lemma patient_age_is_not_validated_witness :
  truthy (session offline) = true /\
  nullish (JObj [("name", JStr "Ana"); ("age", JStr "seventy")]) = false /\
  numeric (ToString (field "age" (JObj [("name", JStr "Ana"); ("age", JStr "seventy")]))) = false /\
  requests (trace (Patients.create (JObj [("name", JStr "Ana"); ("age", JStr "seventy")])) offline)
    = [insertion "patients"
         (JObj [("name", JStr "Ana"); ("age", JNum NaN); ("diagnosis", JStr "");
                ("comorbidities", JStr ""); ("professional_id", JStr "u-17")])] /\
  field "age" (patient_record (session offline)
                 (JObj [("name", JStr "Ana"); ("age", JStr "seventy")])) = JNum NaN.
Proof.
  split; [reflexivity | split; [reflexivity | split; [reflexivity |]]].
  pose proof (@patient_age_is_not_validated unit unreachable offline
                (JObj [("name", JStr "Ana"); ("age", JStr "seventy")]) eq_refl eq_refl) as T.
  split; [exact (proj1 T) | exact (proj1 (proj2 (proj2 T)) eq_refl)].
Defined.

(* ================================================================= *)
(** * Scenarios

    The stores run against the stub on the ward of two patients. *)

Example listByPatient_at_ward :
  result (Wounds.listByPatient (JStr "p1")) at_ward =
    Fulfilled (JArr [
      JObj [("id", JNum (Int 3)); ("patient_id", JStr "p1");
            ("type", JStr "venous ulcer"); ("status", JStr "healed");
            ("created_at", JStr "2024-03-05T16:45:00.000Z")];
      JObj [("id", JNum (Int 1)); ("patient_id", JStr "p1");
            ("type", JStr "pressure ulcer"); ("status", JStr "active");
            ("created_at", JStr "2024-03-01T09:30:00.000Z")]]).
Proof. reflexivity. Qed.

Example listByWound_at_ward :
  result (Treatments.listByWound (JNum (Int 1))) at_ward =
    Fulfilled (JArr [
      JObj [("id", JNum (Int 5)); ("wound_id", JNum (Int 1));
            ("technique", JStr "dressing change");
            ("created_at", JStr "2024-03-03T10:00:00.000Z")];
      JObj [("id", JNum (Int 4)); ("wound_id", JNum (Int 1));
            ("technique", JStr "debridement");
            ("created_at", JStr "2024-03-01T10:00:00.000Z")]]).
Proof. reflexivity. Qed.

Example list_of_no_patients : result Patients.list at_ward = Fulfilled (JArr []).
Proof. reflexivity. Qed.

Example getById_unknown_wound :
  result (Wounds.getById (JNum (Int 9))) at_ward = Fulfilled JNull /\
  trace (Wounds.getById (JNum (Int 9))) at_ward =
    [Request (from "wounds" |> select "*" |> eq "id" (JNum (Int 9)) |> single)
       (Stub.failure "PGRST116" "JSON object requested, multiple (or no) rows returned");
     ConsoleError [JStr "[wounds] getById error:";
                   error (Stub.failure "PGRST116"
                            "JSON object requested, multiple (or no) rows returned")]].
Proof. split; reflexivity. Qed.

Example create_without_fields_rejects :
  Patients.create JNull offline =
    (Rejected (TypeError "Cannot read properties of null (reading 'name')"), offline).
Proof. reflexivity. Qed.

Example create_treatment_at_ward :
  result (Treatments.create (JNum (Int 1)) (JObj [("technique", JStr "debridement")])) at_ward =
    Fulfilled (JObj [("id", JNum (Int 6)); ("wound_id", JNum (Int 1));
                     ("technique", JStr "debridement"); ("supplies", JStr "");
                     ("notes", JStr "");
                     ("created_at", JStr "2023-11-14T22:13:20.123Z")]).
Proof. reflexivity. Qed.

(* ================================================================= *)
(** * Beyond the claims *)

(** ** How a call ends *)

Section Endings.
Context {B : Type} `{Backend B}.

Lemma create_events_request ctx fail ok q r q' r' :
  In (Request q' r') (create_events ctx fail ok q r) -> q' = q /\ r' = r.
Proof.
  unfold create_events. intros [E | Hin]; [inversion E; auto |].
  destruct (truthy (error r)); simpl in Hin;
    repeat (destruct Hin as [E | Hin]; [discriminate E |]); destruct Hin.
Qed.

Lemma read_events_request ctx toast q r q' r' :
  In (Request q' r') (read_events ctx toast q r) -> q' = q /\ r' = r.
Proof.
  unfold read_events. intros [E | Hin]; [inversion E; auto |].
  destruct (truthy (error r)), toast; simpl in Hin;
    repeat (destruct Hin as [E | Hin]; [discriminate E |]); destruct Hin.
Qed.

Lemma create_announces (m : M B value) (w : world B) b ctx fail ok q r :
  m w = (Fulfilled (create_value r), after w b (create_events ctx fail ok q r)) ->
  reports_success m w ok.
Proof.
  intros E. apply observe in E. destruct E as [Hr Ht].
  intros q' r' Hin Hok. rewrite Ht in Hin.
  apply create_events_request in Hin. destruct Hin as [-> ->].
  rewrite Hr, Ht. unfold create_value, create_events. rewrite Hok. auto.
Qed.

Lemma idle_announces (m : M B value) (w : world B) (c : completion value) ok :
  m w = (c, w) -> reports_success m w ok.
Proof.
  intros E q r Hin. apply observe_idle in E. destruct E as [_ Ht].
  rewrite Ht in Hin. destruct Hin.
Qed.

Lemma read_is_quiet (m : M B value) (w : world B) b ctx toast many q r :
  m w = (Fulfilled (read_value many r), after w b (read_events ctx toast q r)) ->
  reads_quietly m w many.
Proof.
  intros E. apply observe in E. destruct E as [Hr Ht].
  intros q' r' Hin Hok. rewrite Ht in Hin.
  apply read_events_request in Hin. destruct Hin as [-> ->].
  rewrite Hr, Ht. unfold read_value, read_events. rewrite Hok. auto.
Qed.

Lemma requests_read_events ctx toast q r : requests (read_events ctx toast q r) = [q].
Proof. unfold read_events. destruct (truthy (error r)), toast; reflexivity. Qed.

End Endings.

(** Property X1.  When the backend answers the insert without an error,
    each [create] fulfils with the row the backend sent, shows its success
    toast with the severity ["success"], and writes nothing to the console:
    the journal of the call is the query and that toast. *)
Theorem create_success_is_announced :
  forall (B : Type) `{Backend B} (w : world B) (parent data : value),
    reports_success (Patients.create data) w "Paciente creado exitosamente." /\
    reports_success (Wounds.create parent data) w "Herida registrada exitosamente." /\
    reports_success (Treatments.create parent data) w "Curación registrada exitosamente.".
Proof.
  intros B H w parent data. split; [| split].
  - destruct (truthy (session w)) eqn:Hu.
    + destruct (nullish data) eqn:Hd.
      * destruct (patients_create_rejects w data Hu Hd) as [e E].
        eapply idle_announces, E.
      * eapply create_announces, (patients_create_run w data Hu Hd).
    + eapply idle_announces, (patients_create_unauthenticated w data Hu).
  - destruct (nullish data) eqn:Hd.
    + destruct (wounds_create_rejects w parent data Hd) as [e E].
      eapply idle_announces, E.
    + eapply create_announces, (wounds_create_run w parent data Hd).
  - destruct (nullish data) eqn:Hd.
    + destruct (treatments_create_rejects w parent data Hd) as [e E].
      eapply idle_announces, E.
    + eapply create_announces, (treatments_create_run w parent data Hd).
Qed.

Lemma create_success_is_announced_witness :
  In (Request (insertion "wounds" (wound_record (JStr "p1") (JObj [("type", JStr "burn")])))
        (Response (JObj [("id", JNum (Int 6)); ("patient_id", JStr "p1");
                         ("type", JStr "burn"); ("location", JStr "");
                         ("dimensions", JStr ""); ("status", JStr "active")]) JNull))
     (trace (Wounds.create (JStr "p1") (JObj [("type", JStr "burn")])) at_ward) /\
  result (Wounds.create (JStr "p1") (JObj [("type", JStr "burn")])) at_ward
    = Fulfilled (JObj [("id", JNum (Int 6)); ("patient_id", JStr "p1");
                       ("type", JStr "burn"); ("location", JStr "");
                       ("dimensions", JStr ""); ("status", JStr "active")]).
Proof.
  assert (I : In (Request (insertion "wounds" (wound_record (JStr "p1") (JObj [("type", JStr "burn")])))
        (Response (JObj [("id", JNum (Int 6)); ("patient_id", JStr "p1");
                         ("type", JStr "burn"); ("location", JStr "");
                         ("dimensions", JStr ""); ("status", JStr "active")]) JNull))
     (trace (Wounds.create (JStr "p1") (JObj [("type", JStr "burn")])) at_ward))
    by (left; reflexivity).
  split; [exact I |].
  exact (proj1 (proj1 (proj2 (@create_success_is_announced Stub.db echoing at_ward
                                (JStr "p1") (JObj [("type", JStr "burn")])))
                  _ _ I eq_refl)).
Defined.



(** ** What is sent *)

Section Sent.
Context {B : Type} `{Backend B}.

Lemma patients_create_requests (w : world B) (data : value) :
  requests (trace (Patients.create data) w) =
    if truthy (session w) && negb (nullish data)
    then [insertion "patients" (patient_record (session w) data)]
    else [].
Proof.
  destruct (truthy (session w)) eqn:Hu; simpl.
  - destruct (nullish data) eqn:Hd; simpl.
    + destruct (patients_create_rejects w data Hu Hd) as [e E].
      apply observe_idle in E. destruct E as [_ ->]. reflexivity.
    + pose proof (patients_create_run w data Hu Hd) as E.
      apply observe in E. destruct E as [_ ->]. apply requests_create_events.
  - pose proof (patients_create_unauthenticated w data Hu) as E.
    apply observe_idle in E. destruct E as [_ ->]. reflexivity.
Qed.

Lemma wounds_create_requests (w : world B) (patientId data : value) :
  requests (trace (Wounds.create patientId data) w) =
    if nullish data then [] else [insertion "wounds" (wound_record patientId data)].
Proof.
  destruct (nullish data) eqn:Hd.
  - destruct (wounds_create_rejects w patientId data Hd) as [e E].
    apply observe_idle in E. destruct E as [_ ->]. reflexivity.
  - pose proof (wounds_create_run w patientId data Hd) as E.
    apply observe in E. destruct E as [_ ->]. apply requests_create_events.
Qed.

Lemma treatments_create_requests (w : world B) (woundId data : value) :
  requests (trace (Treatments.create woundId data) w) =
    if nullish data then []
    else [insertion "treatments" (treatment_record woundId data (clock w))].
Proof.
  destruct (nullish data) eqn:Hd.
  - destruct (treatments_create_rejects w woundId data Hd) as [e E].
    apply observe_idle in E. destruct E as [_ ->]. reflexivity.
  - pose proof (treatments_create_run w woundId data Hd) as E.
    apply observe in E. destruct E as [_ ->]. apply requests_create_events.
Qed.


End Sent.

(** Property X3.  The record a [create] sends has a fixed list of keys and
    depends on the fields argument through the named fields only: two
    arguments that agree on them send the same query, so an [id],
    [patient_id], [professional_id], [wound_id] or [created_at] smuggled
    into the fields (or fields that are a string or a number rather than an
    object) changes nothing; owner, parent and time come from the session,
    the first argument and the clock. *)
Theorem records_hold_the_named_fields_only :
  forall (B : Type) `{Backend B} (w : world B) (parent data data' : value),
    nullish data = false -> nullish data' = false ->
    (agree ["name"; "age"; "diagnosis"; "comorbidities"] data data' ->
     requests (trace (Patients.create data) w)
       = requests (trace (Patients.create data') w)) /\
    (agree ["type"; "location"; "dimensions"; "status"] data data' ->
     requests (trace (Wounds.create parent data) w)
       = requests (trace (Wounds.create parent data') w)) /\
    (agree ["technique"; "supplies"; "notes"] data data' ->
     requests (trace (Treatments.create parent data) w)
       = requests (trace (Treatments.create parent data') w)) /\
    (forall t record, In (t, record) (inserted (trace (Patients.create data) w)) ->
       keys record = ["name"; "age"; "diagnosis"; "comorbidities"; "professional_id"] /\
       field "professional_id" record = field "id" (session w)) /\
    (forall t record, In (t, record) (inserted (trace (Wounds.create parent data) w)) ->
       keys record = ["patient_id"; "type"; "location"; "dimensions"; "status"] /\
       field "patient_id" record = parent) /\
    (forall t record, In (t, record) (inserted (trace (Treatments.create parent data) w)) ->
       keys record = ["wound_id"; "technique"; "supplies"; "notes"; "created_at"] /\
       field "wound_id" record = parent /\
       field "created_at" record = JStr (toISOString (clock w))).
Proof.
  intros B H w parent data data' Hd Hd'.
  unfold inserted.
  rewrite !patients_create_requests, !wounds_create_requests,
    !treatments_create_requests, Hd, Hd'.
  split; [| split; [| split; [| split; [| split]]]].
  - intros A. destruct (truthy (session w)); [| reflexivity]. simpl.
    unfold patient_record.
    rewrite (A "name"), (A "age"), (A "diagnosis"), (A "comorbidities");
      simpl; auto 6.
  - intros A. unfold wound_record.
    rewrite (A "type"), (A "location"), (A "dimensions"), (A "status");
      simpl; auto 6.
  - intros A. unfold treatment_record.
    rewrite (A "technique"), (A "supplies"), (A "notes"); simpl; auto 6.
  - destruct (truthy (session w)); simpl; [| intros t record []].
    intros t record [E | []]. inversion E; subst. split; reflexivity.
  - simpl. intros t record [E | []]. inversion E; subst. split; reflexivity.
  - simpl. intros t record [E | []]. inversion E; subst. repeat split.
Qed.

Lemma records_hold_the_named_fields_only_witness :
  nullish (JObj [("type", JStr "burn")]) = false /\
  nullish (JObj [("patient_id", JStr "p2"); ("id", JNum (Int 1)); ("type", JStr "burn");
                 ("created_at", JStr "1999-01-01T00:00:00.000Z")]) = false /\
  requests (trace (Wounds.create (JStr "p1") (JObj [("type", JStr "burn")])) at_ward)
    = requests (trace (Wounds.create (JStr "p1")
                  (JObj [("patient_id", JStr "p2"); ("id", JNum (Int 1)); ("type", JStr "burn");
                         ("created_at", JStr "1999-01-01T00:00:00.000Z")])) at_ward).
Proof.
  split; [reflexivity | split; [reflexivity |]].
  apply (proj1 (proj2 (@records_hold_the_named_fields_only Stub.db echoing at_ward
                         (JStr "p1") (JObj [("type", JStr "burn")])
                         (JObj [("patient_id", JStr "p2"); ("id", JNum (Int 1));
                                ("type", JStr "burn");
                                ("created_at", JStr "1999-01-01T00:00:00.000Z")])
                         eq_refl eq_refl))).
  intros k Hk.
  repeat (destruct Hk as [<- | Hk]; [reflexivity |]). destruct Hk.
Defined.

Section ReadsSent.
Context {B : Type} `{Backend B}.

Lemma read_requests (m : M B value) (w : world B) b ctx toast many q r :
  m w = (Fulfilled (read_value many r), after w b (read_events ctx toast q r)) ->
  requests (trace m w) = [q] /\ result m w = Fulfilled (read_value many r).
Proof.
  intros E. apply observe in E. destruct E as [-> ->].
  split; [apply requests_read_events | reflexivity].
Qed.

End ReadsSent.

(** Property X4.  Whatever the backend answers, every read sends exactly
    one query, a select of all columns: [list] unfiltered (scoping is the
    backend's), the [getById]s filtered on [id] and asking for a single
    row, the listings filtered on the parent column, each list ordered by
    [created_at] descending.  No read ever rejects. *)
Theorem reads_send_one_select :
  forall (B : Type) `{Backend B} (w : world B) (id : value),
    (requests (trace Patients.list w) =
       [Query "patients" Select (Some "*") [] [("created_at", false)] false] /\
     requests (trace (Patients.getById id) w) =
       [Query "patients" Select (Some "*") [("id", id)] [] true] /\
     requests (trace (Wounds.listByPatient id) w) =
       [Query "wounds" Select (Some "*") [("patient_id", id)] [("created_at", false)] false] /\
     requests (trace (Wounds.getById id) w) =
       [Query "wounds" Select (Some "*") [("id", id)] [] true] /\
     requests (trace (Treatments.listByWound id) w) =
       [Query "treatments" Select (Some "*") [("wound_id", id)] [("created_at", false)] false]) /\
    (~ rejects Patients.list w /\ ~ rejects (Patients.getById id) w /\
     ~ rejects (Wounds.listByPatient id) w /\ ~ rejects (Wounds.getById id) w /\
     ~ rejects (Treatments.listByWound id) w).
Proof.
  intros B H w id. unfold rejects.
  destruct (read_requests _ _ _ _ _ _ _ _ (patients_list_run w)) as [Q1 R1].
  destruct (read_requests _ _ _ _ _ _ _ _ (patients_getById_run w id)) as [Q2 R2].
  destruct (read_requests _ _ _ _ _ _ _ _ (wounds_listByPatient_run w id)) as [Q3 R3].
  destruct (read_requests _ _ _ _ _ _ _ _ (wounds_getById_run w id)) as [Q4 R4].
  destruct (read_requests _ _ _ _ _ _ _ _ (treatments_listByWound_run w id)) as [Q5 R5].
  rewrite Q1, Q2, Q3, Q4, Q5, R1, R2, R3, R4, R5.
  split; [repeat split | repeat split; intros [e E]; discriminate E].
Qed.

(** Property X5.  A [create] sends the insert of its record, once, or
    nothing at all: nothing when it rejects or nobody is signed in, and
    exactly one query when the backend fails, which is never sent again. *)
Theorem creates_send_one_insert_or_nothing :
  forall (B : Type) `{Backend B} (w : world B) (parent data : value),
    requests (trace (Patients.create data) w) =
      (if truthy (session w) && negb (nullish data)
       then [insertion "patients" (patient_record (session w) data)]
       else []) /\
    requests (trace (Wounds.create parent data) w) =
      (if nullish data then []
       else [insertion "wounds" (wound_record parent data)]) /\
    requests (trace (Treatments.create parent data) w) =
      (if nullish data then []
       else [insertion "treatments" (treatment_record parent data (clock w))]) /\
    (backend_failed (trace (Patients.create data) w) ->
     List.length (requests (trace (Patients.create data) w)) = 1%nat) /\
    (backend_failed (trace (Wounds.create parent data) w) ->
     List.length (requests (trace (Wounds.create parent data) w)) = 1%nat) /\
    (backend_failed (trace (Treatments.create parent data) w) ->
     List.length (requests (trace (Treatments.create parent data) w)) = 1%nat).
Proof.
  intros B H w parent data.
  pose proof (patients_create_reports w data) as P.
  pose proof (wounds_create_reports w parent data) as W.
  pose proof (treatments_create_reports w parent data) as T.
  split; [apply patients_create_requests |].
  split; [apply wounds_create_requests |].
  split; [apply treatments_create_requests |].
  split; [| split]; intros F.
  - destruct (P F) as (_ & q & r & _ & ->). reflexivity.
  - destruct (W F) as (_ & q & r & _ & ->). reflexivity.
  - destruct (T F) as (_ & q & r & _ & ->). reflexivity.
Qed.

Lemma creates_send_one_insert_or_nothing_witness :
  backend_failed (trace (Patients.create (JObj [("name", JStr "Ana")])) offline) /\
  List.length (requests (trace (Patients.create (JObj [("name", JStr "Ana")])) offline)) = 1%nat.
Proof.
  assert (F : backend_failed (trace (Patients.create (JObj [("name", JStr "Ana")])) offline)).
  { do 2 eexists. split; [left; reflexivity | reflexivity]. }
  split; [exact F |].
  exact (proj1 (proj2 (proj2 (proj2 (@creates_send_one_insert_or_nothing unit unreachable
                                        offline JNull (JObj [("name", JStr "Ana")]))))) F).
Defined.

(** Property X6.  A read answered without an error is silent: the caller
    gets the backend's data as it is ([getById]), or that data unless it is
    falsy, then [[]] (the lists), and the journal holds the query alone, no
    log line and no toast. *)
Theorem read_success_is_quiet :
  forall (B : Type) `{Backend B} (w : world B) (id : value),
    reads_quietly Patients.list w true /\
    reads_quietly (Patients.getById id) w false /\
    reads_quietly (Wounds.listByPatient id) w true /\
    reads_quietly (Wounds.getById id) w false /\
    reads_quietly (Treatments.listByWound id) w true.
Proof.
  intros B H w id.
  split; [eapply read_is_quiet, (patients_list_run w) |].
  split; [eapply read_is_quiet, (patients_getById_run w id) |].
  split; [eapply read_is_quiet, (wounds_listByPatient_run w id) |].
  split; [eapply read_is_quiet, (wounds_getById_run w id) |].
  eapply read_is_quiet, (treatments_listByWound_run w id).
Qed.

Lemma read_success_is_quiet_witness :
  In (Request (from "wounds" |> select "*" |> eq "id" (JNum (Int 2)) |> single)
        (Response (JObj [("id", JNum (Int 2)); ("patient_id", JStr "p2");
                         ("type", JStr "burn"); ("status", JStr "active");
                         ("created_at", JStr "2024-03-02T11:00:00.000Z")]) JNull))
     (trace (Wounds.getById (JNum (Int 2))) at_ward) /\
  trace (Wounds.getById (JNum (Int 2))) at_ward =
    [Request (from "wounds" |> select "*" |> eq "id" (JNum (Int 2)) |> single)
       (Response (JObj [("id", JNum (Int 2)); ("patient_id", JStr "p2");
                        ("type", JStr "burn"); ("status", JStr "active");
                        ("created_at", JStr "2024-03-02T11:00:00.000Z")]) JNull)].
Proof.
  assert (I : In (Request (from "wounds" |> select "*" |> eq "id" (JNum (Int 2)) |> single)
        (Response (JObj [("id", JNum (Int 2)); ("patient_id", JStr "p2");
                         ("type", JStr "burn"); ("status", JStr "active");
                         ("created_at", JStr "2024-03-02T11:00:00.000Z")]) JNull))
     (trace (Wounds.getById (JNum (Int 2))) at_ward)) by (left; reflexivity).
  split; [exact I |].
  exact (proj2 (proj1 (proj2 (proj2 (proj2 (@read_success_is_quiet Stub.db echoing at_ward
                                              (JNum (Int 2))))))
                  _ _ I eq_refl)).
Defined.

(** ** Against the stub *)

Section StubReads.

Lemma sort_unordered (l : list value) : Stub.sort [] l = l.
Proof.
  induction l as [| x l IH]; [reflexivity |].
  unfold Stub.sort in *. simpl. rewrite IH. destruct l; reflexivity.
Qed.

Lemma stub_select_one (d : Stub.db) (t : string) (id : value) :
  request d (from t |> select "*" |> eq "id" id |> single) =
    (d, match carrying id t d with
        | [row] => Response row JNull
        | _ => Stub.failure "PGRST116"
                 "JSON object requested, multiple (or no) rows returned"
        end).
Proof.
  unfold request, echoing, Stub.exec, Stub.shape, carrying. simpl.
  rewrite sort_unordered. reflexivity.
Qed.

Lemma stub_getById (m : M Stub.db value) (w : world Stub.db) (t : string)
  (id : value) (ctx : string) :
  (let q := from t |> select "*" |> eq "id" id |> single in
   m w = (Fulfilled (read_value false (snd (request (server w) q))),
          after w (fst (request (server w) q))
            (read_events ctx None q (snd (request (server w) q))))) ->
  result m w = Fulfilled (match carrying id t (server w) with
                          | [row] => row
                          | _ => JNull
                          end) /\
  (backend_failed (trace m w) <-> ~ exists row, carrying id t (server w) = [row]) /\
  server (snd (m w)) = server w.
Proof.
  cbv zeta. intros E. pose proof E as O. apply observe in O. destruct O as [Hr Ht].
  rewrite Hr, Ht, E. rewrite stub_select_one. simpl.
  destruct (carrying id t (server w)) as [| row [| row' l]]; simpl.
  - split; [reflexivity | split; [| reflexivity]].
    split; [intros _ [row E']; discriminate E' |].
    intros _. do 2 eexists. split; [left; reflexivity | reflexivity].
  - split; [reflexivity | split; [| reflexivity]].
    split; [| intros N; destruct N; eauto].
    intros F. apply read_events_failed in F. discriminate F.
  - split; [reflexivity | split; [| reflexivity]].
    split; [intros _ [r E']; discriminate E' |].
    intros _. do 2 eexists. split; [left; reflexivity | reflexivity].
Qed.

End StubReads.

(** Property X7.  Against the stub, [getById] fulfils with a row exactly
    when one stored row of the table carries the identity; with none or
    several it fulfils with [null] and the failure is on the console: a
    missing record is reported like any other error. *)
Theorem getById_wants_exactly_one_row :
  forall (w : world Stub.db) (id : value),
    (result (Patients.getById id) w =
       Fulfilled (match carrying id "patients" (server w) with
                  | [row] => row
                  | _ => JNull
                  end) /\
     (backend_failed (trace (Patients.getById id) w) <->
      ~ exists row, carrying id "patients" (server w) = [row])) /\
    (result (Wounds.getById id) w =
       Fulfilled (match carrying id "wounds" (server w) with
                  | [row] => row
                  | _ => JNull
                  end) /\
     (backend_failed (trace (Wounds.getById id) w) <->
      ~ exists row, carrying id "wounds" (server w) = [row])).
Proof.
  intros w id. split.
  - destruct (stub_getById _ w "patients" id _ (patients_getById_run w id)) as (R & F & _).
    split; assumption.
  - destruct (stub_getById _ w "wounds" id _ (wounds_getById_run w id)) as (R & F & _).
    split; assumption.
Qed.

Lemma getById_wants_exactly_one_row_witness :
  ~ (exists row, carrying (JNum (Int 9)) "wounds" (server at_ward) = [row]) /\
  backend_failed (trace (Wounds.getById (JNum (Int 9))) at_ward) /\
  result (Wounds.getById (JNum (Int 9))) at_ward = Fulfilled JNull.
Proof.
  assert (N : ~ (exists row, carrying (JNum (Int 9)) "wounds" (server at_ward) = [row]))
    by (intros [row E]; discriminate E).
  pose proof (getById_wants_exactly_one_row at_ward (JNum (Int 9))) as (_ & R & F).
  split; [exact N | split; [exact (proj2 F N) | exact R]].
Defined.

Section StubLists.

Lemma stub_select_many (d : Stub.db) (t col : string) (v : value) :
  request d (from t |> select "*" |> eq col v |> order "created_at" false) =
    (d, Response (JArr (Stub.sort [("created_at", false)]
                          (filter (passesb [(col, v)]) (Stub.rows_of t d)))) JNull).
Proof. reflexivity. Qed.

Lemma stub_select_all (d : Stub.db) (t : string) :
  request d (from t |> select "*" |> order "created_at" false) =
    (d, Response (JArr (Stub.sort [("created_at", false)] (Stub.rows_of t d))) JNull).
Proof.
  unfold request, echoing, Stub.exec, Stub.shape. simpl.
  replace (filter (passesb []) (Stub.rows_of t d)) with (Stub.rows_of t d);
    [reflexivity |].
  induction (Stub.rows_of t d) as [| x l IH]; simpl; [reflexivity | f_equal; exact IH].
Qed.

(** What a listing of [col = v] holds after a record was inserted. *)
Lemma listing_after_insert (d : Stub.db) (t col : string) (v : value) (o : object)
  (x : value) :
  let row := JObj (("id", JNum (Int (Stub.next_id d))) :: o) in
  let d' := fst (request d (insertion t (JObj o))) in
  In x (Stub.sort [("created_at", false)] (filter (passesb [(col, v)]) (Stub.rows_of t d')))
  <-> In x (Stub.sort [("created_at", false)] (filter (passesb [(col, v)]) (Stub.rows_of t d)))
      \/ (x = row /\ field col row = v).
Proof.
  intros row d'. subst d'. rewrite stub_insert. simpl fst.
  rewrite !sort_In, rows_of_app, String.eqb_refl, filter_app, in_app_iff.
  apply or_iff_compat_l. fold row.
  assert (S1 : filter (passesb [(col, v)]) [row]
               = if passesb [(col, v)] row then [row] else []) by reflexivity.
  rewrite S1. clear S1.
  destruct (passesb [(col, v)] row) eqn:P.
  - apply passesb_passes in P. inversion P as [| ? ? E]; subst.
    split; [intros Hin; destruct Hin as [<- | []]; split; [reflexivity | exact E]
           | intros [-> _]; left; reflexivity].
  - split; [intros Hin; destruct Hin |]. intros [-> E].
    assert (P' : passesb [(col, v)] row = true)
      by (apply passesb_passes; repeat constructor; exact E).
    congruence.
Qed.

Lemma all_after_insert (d : Stub.db) (t : string) (o : object) (x : value) :
  let row := JObj (("id", JNum (Int (Stub.next_id d))) :: o) in
  let d' := fst (request d (insertion t (JObj o))) in
  In x (Stub.sort [("created_at", false)] (Stub.rows_of t d'))
  <-> In x (Stub.sort [("created_at", false)] (Stub.rows_of t d)) \/ x = row.
Proof.
  intros row d'. subst d'. rewrite stub_insert. simpl fst.
  rewrite !sort_In, rows_of_app, String.eqb_refl, in_app_iff.
  apply or_iff_compat_l. fold row. simpl. intuition.
Qed.

Lemma stub_listing_result (m : M Stub.db value) (w : world Stub.db) (t col : string)
  (v : value) (ctx : string) :
  (let q := from t |> select "*" |> eq col v |> order "created_at" false in
   m w = (Fulfilled (read_value true (snd (request (server w) q))),
          after w (fst (request (server w) q))
            (read_events ctx None q (snd (request (server w) q))))) ->
  result m w =
    Fulfilled (JArr (Stub.sort [("created_at", false)]
                       (filter (passesb [(col, v)]) (Stub.rows_of t (server w))))).
Proof.
  cbv zeta. intros E. apply observe in E. destruct E as [-> _].
  rewrite stub_select_many. reflexivity.
Qed.

Lemma stub_list_result (w : world Stub.db) :
  result Patients.list w =
    Fulfilled (JArr (Stub.sort [("created_at", false)]
                       (Stub.rows_of "patients" (server w)))).
Proof.
  pose proof (patients_list_run w) as E. cbv zeta in E.
  apply observe in E. destruct E as [-> _].
  rewrite stub_select_all. reflexivity.
Qed.

End StubLists.

(** Property X8.  Against the stub, a [create] changes the listings by its
    own row and nothing else: the listing of its parent gains the new row,
    every other parent's listing holds the rows it held, and the list of
    patients gains the new patient. *)
Theorem create_adds_exactly_the_row :
  forall (w : world Stub.db) (parent other data : value),
    nullish data = false ->
    (truthy (session w) = true ->
     exists row w' before after,
       Patients.create data w = (Fulfilled row, w') /\
       result Patients.list w = Fulfilled (JArr before) /\
       result Patients.list w' = Fulfilled (JArr after) /\
       forall x, In x after <-> In x before \/ x = row) /\
    (exists row w' before after,
       Wounds.create parent data w = (Fulfilled row, w') /\
       result (Wounds.listByPatient other) w = Fulfilled (JArr before) /\
       result (Wounds.listByPatient other) w' = Fulfilled (JArr after) /\
       forall x, In x after <-> In x before \/ (x = row /\ parent = other)) /\
    (exists row w' before after,
       Treatments.create parent data w = (Fulfilled row, w') /\
       result (Treatments.listByWound other) w = Fulfilled (JArr before) /\
       result (Treatments.listByWound other) w' = Fulfilled (JArr after) /\
       forall x, In x after <-> In x before \/ (x = row /\ parent = other)).
Proof.
  intros w parent other data Hd. split; [| split].
  - intros Hu.
    pose proof (patients_create_run w data Hu Hd) as E. cbv zeta in E.
    unfold patient_record in E. rewrite stub_created in E.
    do 4 eexists. split; [exact E |].
    split; [apply stub_list_result |]. split; [apply stub_list_result |].
    intros x. unfold after. cbn [server]. apply all_after_insert.
  - pose proof (wounds_create_run w parent data Hd) as E. cbv zeta in E.
    unfold wound_record in E. rewrite stub_created in E.
    do 4 eexists. split; [exact E |].
    split; [eapply stub_listing_result, wounds_listByPatient_run |].
    split; [eapply stub_listing_result, wounds_listByPatient_run |].
    intros x. unfold after. cbn [server].
    rewrite (listing_after_insert (server w) "wounds" "patient_id" other). reflexivity.
  - pose proof (treatments_create_run w parent data Hd) as E. cbv zeta in E.
    unfold treatment_record in E. rewrite stub_created in E.
    do 4 eexists. split; [exact E |].
    split; [eapply stub_listing_result, treatments_listByWound_run |].
    split; [eapply stub_listing_result, treatments_listByWound_run |].
    intros x. unfold after. cbn [server].
    rewrite (listing_after_insert (server w) "treatments" "wound_id" other). reflexivity.
Qed.

Lemma create_adds_exactly_the_row_witness :
  nullish (JObj [("technique", JStr "irrigation")]) = false /\
  exists row w' before after,
    Treatments.create (JNum (Int 1)) (JObj [("technique", JStr "irrigation")]) at_ward
      = (Fulfilled row, w') /\
    result (Treatments.listByWound (JNum (Int 2))) at_ward = Fulfilled (JArr before) /\
    result (Treatments.listByWound (JNum (Int 2))) w' = Fulfilled (JArr after) /\
    forall x, In x after <-> In x before \/ (x = row /\ JNum (Int 1) = JNum (Int 2)).
Proof.
  split; [reflexivity |].
  exact (proj2 (proj2 (create_adds_exactly_the_row at_ward (JNum (Int 1)) (JNum (Int 2))
                         (JObj [("technique", JStr "irrigation")]) eq_refl))).
Defined.

Section StubInvariant.

Lemma well_formed_after (A : Type) (m : M Stub.db A) (w : world Stub.db)
  (c : completion A) (q : query) (evs : list event) :
  m w = (c, after w (fst (request (server w) q)) evs) ->
  Stub.well_formed (server w) -> Stub.well_formed (server (snd (m w))).
Proof.
  intros E W. rewrite E. simpl. apply stub_exec_well_formed, W.
Qed.

Lemma well_formed_idle (A : Type) (m : M Stub.db A) (w : world Stub.db)
  (c : completion A) :
  m w = (c, w) ->
  Stub.well_formed (server w) -> Stub.well_formed (server (snd (m w))).
Proof. intros E W. rewrite E. exact W. Qed.

Lemma stored_identity (d : Stub.db) (t : string) (x : value) :
  Stub.well_formed d -> In x (Stub.rows_of t d) ->
  exists i, field "id" x = JNum (Int i) /\ i < Stub.next_id d.
Proof.
  unfold Stub.well_formed, Stub.rows_of. intros W Hin.
  apply in_map_iff in Hin. destruct Hin as ([t' x'] & <- & Hin).
  apply filter_In in Hin. destruct Hin as [Hin _].
  rewrite Forall_forall in W. exact (W _ Hin).
Qed.

Lemma fresh_identity (m : M Stub.db value) (w : world Stub.db) (t' : string)
  (o : object) (ctx fail ok : string) :
  (let q := insertion t' (JObj o) in
   m w = (Fulfilled (create_value (snd (request (server w) q))),
          after w (fst (request (server w) q))
            (create_events ctx fail ok q (snd (request (server w) q))))) ->
  Stub.well_formed (server w) ->
  forall row w', m w = (Fulfilled row, w') ->
  forall t x, In x (Stub.rows_of t (server w)) -> field "id" x <> field "id" row.
Proof.
  cbv zeta. intros E W row w' E' t x Hin.
  rewrite E, stub_created in E'. inversion E'; subst row.
  destruct (stored_identity _ _ _ W Hin) as (i & -> & Hi).
  simpl. intros C. inversion C. lia.
Qed.

End StubInvariant.

(** Property X9.  Against the stub, every operation of every store leaves
    a well-formed store well-formed, so a round trip is available after any
    sequence of calls, and the row a [create] fulfils with never carries
    the identity of a row stored before. *)
Theorem stub_store_stays_well_formed :
  forall (w : world Stub.db) (id data : value),
    Stub.well_formed (server w) ->
    (Stub.well_formed (server (snd (Patients.create data w))) /\
     Stub.well_formed (server (snd (Wounds.create id data w))) /\
     Stub.well_formed (server (snd (Treatments.create id data w))) /\
     Stub.well_formed (server (snd (Patients.list w))) /\
     Stub.well_formed (server (snd (Patients.getById id w))) /\
     Stub.well_formed (server (snd (Wounds.listByPatient id w))) /\
     Stub.well_formed (server (snd (Wounds.getById id w))) /\
     Stub.well_formed (server (snd (Treatments.listByWound id w)))) /\
    (forall row w', Patients.create data w = (Fulfilled row, w') ->
       forall t x, In x (Stub.rows_of t (server w)) -> field "id" x <> field "id" row) /\
    (forall row w', Wounds.create id data w = (Fulfilled row, w') ->
       forall t x, In x (Stub.rows_of t (server w)) -> field "id" x <> field "id" row) /\
    (forall row w', Treatments.create id data w = (Fulfilled row, w') ->
       forall t x, In x (Stub.rows_of t (server w)) -> field "id" x <> field "id" row).
Proof.
  intros w id data W.
  assert (P : Stub.well_formed (server (snd (Patients.create data w))) /\
              forall row w', Patients.create data w = (Fulfilled row, w') ->
                forall t x, In x (Stub.rows_of t (server w)) ->
                            field "id" x <> field "id" row).
  { destruct (truthy (session w)) eqn:Hu.
    - destruct (nullish data) eqn:Hd.
      + destruct (patients_create_rejects w data Hu Hd) as [e E].
        split; [eapply well_formed_idle; eauto |].
        intros row w' E'. rewrite E in E'. discriminate E'.
      + pose proof (patients_create_run w data Hu Hd) as E.
        split; [eapply well_formed_after; eauto |].
        eapply fresh_identity; eauto.
    - pose proof (patients_create_unauthenticated w data Hu) as E.
      split; [eapply well_formed_idle; eauto |].
      intros row w' E' t x Hin. rewrite E in E'. inversion E'; subst.
      destruct (stored_identity _ _ _ W Hin) as (i & -> & _). discriminate. }
  assert (Wd : Stub.well_formed (server (snd (Wounds.create id data w))) /\
               forall row w', Wounds.create id data w = (Fulfilled row, w') ->
                 forall t x, In x (Stub.rows_of t (server w)) ->
                             field "id" x <> field "id" row).
  { destruct (nullish data) eqn:Hd.
    - destruct (wounds_create_rejects w id data Hd) as [e E].
      split; [eapply well_formed_idle; eauto |].
      intros row w' E'. rewrite E in E'. discriminate E'.
    - pose proof (wounds_create_run w id data Hd) as E.
      split; [eapply well_formed_after; eauto |].
      eapply fresh_identity; eauto. }
  assert (T : Stub.well_formed (server (snd (Treatments.create id data w))) /\
              forall row w', Treatments.create id data w = (Fulfilled row, w') ->
                forall t x, In x (Stub.rows_of t (server w)) ->
                            field "id" x <> field "id" row).
  { destruct (nullish data) eqn:Hd.
    - destruct (treatments_create_rejects w id data Hd) as [e E].
      split; [eapply well_formed_idle; eauto |].
      intros row w' E'. rewrite E in E'. discriminate E'.
    - pose proof (treatments_create_run w id data Hd) as E.
      split; [eapply well_formed_after; eauto |].
      eapply fresh_identity; eauto. }
  split; [| split; [apply P | split; [apply Wd | apply T]]].
  split; [apply P |]. split; [apply Wd |]. split; [apply T |].
  split; [eapply well_formed_after; [apply patients_list_run | exact W] |].
  split; [eapply well_formed_after; [apply patients_getById_run | exact W] |].
  split; [eapply well_formed_after; [apply wounds_listByPatient_run | exact W] |].
  split; [eapply well_formed_after; [apply wounds_getById_run | exact W] |].
  eapply well_formed_after; [apply treatments_listByWound_run | exact W].
Qed.

Lemma stub_store_stays_well_formed_witness :
  Stub.well_formed (server at_ward) /\
  Stub.well_formed
    (server (snd (Wounds.create (JStr "p1") (JObj [("type", JStr "burn")]) at_ward))).
Proof.
  split; [exact ward_well_formed |].
  exact (proj1 (proj2 (proj1 (stub_store_stays_well_formed at_ward (JStr "p1")
                                (JObj [("type", JStr "burn")]) ward_well_formed)))).
Defined.

(** ** Ages *)

Section Ages.


Lemma trim_start_white (ws s : string) :
  blank ws -> trim_start (ws ++ s) = trim_start s.
Proof.
  induction ws as [| c ws IH]; intros W; [reflexivity |].
  simpl. rewrite (W c) by (left; reflexivity).
  apply IH. intros c' Hc'. apply W. right. exact Hc'.
Qed.

Lemma read_digits_stops (rest : string) (acc : option Z) :
  stops_here rest -> read_digits 10 rest acc = acc.
Proof.
  destruct rest as [| c rest]; simpl; [reflexivity |].
  intros S. pose proof (digit_value_decimal c) as D. rewrite S in D.
  destruct (digit_value c) as [d |]; [| reflexivity].
  destruct (Z.ltb_spec d 10); [lia | reflexivity].
Qed.

Lemma read_decimal_then (d : uint) (rest : string) (acc : option Z) :
  stops_here rest ->
  read_digits 10 (NilEmpty.string_of_uint d ++ rest) acc
    = read_digits 10 (NilEmpty.string_of_uint d) acc.
Proof.
  intros S. revert acc.
  induction d as [| d IH | d IH | d IH | d IH | d IH | d IH | d IH | d IH | d IH | d IH];
    intros acc; [apply read_digits_stops, S | ..];
    cbn -[Z.mul Z.add digit_value Z.ltb];
    match goal with
    | |- context [digit_value ?c] =>
        let v := eval vm_compute in (digit_value c) in
        change (digit_value c) with v
    end; cbv iota beta;
    match goal with
    | |- context [?k <? 10] =>
        let v := eval vm_compute in (k <? 10) in change (k <? 10) with v
    end; cbv iota; apply IH.
Qed.


Lemma digit_is_no_space (c : ascii) :
  is_digit c = true ->
  is_white_space c = false /\
  (forall rest : string,
     match String c rest with
     | String "-" r => (-1, r)
     | String "+" r => (1, r)
     | t => (1, t)
     end = (1, String c rest)).
Proof.
  destruct c as [[|] [|] [|] [|] [|] [|] [|] [|]]; intros D;
    first [discriminate D | split; reflexivity].
Qed.

Lemma decimal_head (d : uint) :
  d <> Nil ->
  exists c tl, NilEmpty.string_of_uint d = String c tl /\ is_digit c = true.
Proof. destruct d; intros Hd; [contradiction | ..]; do 2 eexists; split; reflexivity. Qed.

Lemma parseInt_decimal_prefix (ws : string) (sign : string) (d : uint) (rest : string) :
  blank ws -> sign = "" \/ sign = "+" \/ sign = "-" -> d <> Nil -> stops_here rest ->
  parseInt (JStr (ws ++ sign ++ NilEmpty.string_of_uint d ++ rest)) 10
    = JNum (Int ((if (sign =? "-")%string then -1 else 1) * Z.of_N (Pos.of_uint d))).
Proof.
  intros W S Hd R. rewrite parseInt_10_unfold. cbn [ToString].
  rewrite (trim_start_white _ _ W).
  pose proof (read_decimal_then d rest None R) as E.
  rewrite (read_decimal d Hd) in E.
  destruct (decimal_head d Hd) as (c & tl & Ed & Dc).
  destruct (digit_is_no_space c Dc) as [Wc Mc].
  destruct S as [-> | [-> | ->]]; cbn [append String.eqb Ascii.eqb Bool.eqb];
    cbn [trim_start]; try change (is_white_space "+") with false;
    try change (is_white_space "-") with false; cbv iota.
  - rewrite Ed in *. cbn [append trim_start] in *. rewrite Wc.
    rewrite (Mc (tl ++ rest)), E. reflexivity.
  - rewrite E. reflexivity.
  - rewrite E. reflexivity.
Qed.

End Ages.

Lemma patients_create_inserted (B : Type) `{Backend B} (w : world B) (data : value) :
  truthy (session w) = true -> nullish data = false ->
  inserted (trace (Patients.create data) w)
    = [("patients", patient_record (session w) data)].
Proof.
  intros Hu Hd. unfold inserted. rewrite patients_create_requests, Hu, Hd. reflexivity.
Qed.



(** Property X11.  An age typed as text is read up to its first character
    that is not a digit: after optional white space and an optional sign,
    the decimal digits give the age, and whatever follows them (a unit, a
    fraction) is dropped without complaint. *)
Theorem age_text_is_read_up_to_the_first_non_digit :
  forall (B : Type) `{Backend B} (w : world B) (data : value)
         (ws sign : string) (d : uint) (rest : string),
    truthy (session w) = true -> nullish data = false ->
    blank ws -> sign = "" \/ sign = "+" \/ sign = "-" -> d <> Nil -> stops_here rest ->
    field "age" data = JStr (ws ++ sign ++ NilEmpty.string_of_uint d ++ rest) ->
    exists record,
      inserted (trace (Patients.create data) w) = [("patients", record)] /\
      field "age" record
        = JNum (Int ((if (sign =? "-")%string then -1 else 1) * Z.of_N (Pos.of_uint d))).
Proof.
  intros B H w data ws sign d rest Hu Hd W S Hn R E.
  exists (patient_record (session w) data).
  split; [apply patients_create_inserted; assumption |].
  change (parseInt (field "age" data) 10
          = JNum (Int ((if (sign =? "-")%string then -1 else 1) * Z.of_N (Pos.of_uint d)))).
  rewrite E. apply parseInt_decimal_prefix; assumption.
Qed.

Lemma age_text_is_read_up_to_the_first_non_digit_witness :
  truthy (session offline) = true /\
  blank "  " /\ D7 (D1 Nil) <> Nil /\ stops_here ".5 years" /\
  exists record,
    inserted (trace (Patients.create (JObj [("age", JStr "  -71.5 years")])) offline)
      = [("patients", record)] /\
    field "age" record = JNum (Int (-71)).
Proof.
  assert (W : blank "  ").
  { intros c [<- | [<- | []]]; reflexivity. }
  assert (N : D7 (D1 Nil) <> Nil) by discriminate.
  assert (R : stops_here ".5 years") by reflexivity.
  split; [reflexivity | split; [exact W | split; [exact N | split; [exact R |]]]].
  exact (@age_text_is_read_up_to_the_first_non_digit unit unreachable offline
           (JObj [("age", JStr "  -71.5 years")]) "  " "-" (D7 (D1 Nil)) ".5 years"
           eq_refl eq_refl W (or_intror (or_intror eq_refl)) N R eq_refl).
Defined.

(** ** Timestamps in order *)

Section StampOrder.

Lemma length_app (a b : string) :
  String.length (a ++ b) = (String.length a + String.length b)%nat.
Proof. induction a as [| c a IH]; simpl; [reflexivity | rewrite IH; reflexivity]. Qed.

Lemma length_pad (w : nat) (n : Z) : String.length (pad w n) = w.
Proof.
  revert n. induction w as [| w IH]; intros n; [reflexivity |].
  cbn [pad]. rewrite length_app, IH. simpl. lia.
Qed.

Lemma compare_app (a b s t : string) :
  String.length a = String.length b ->
  String.compare (a ++ s) (b ++ t) =
    match String.compare a b with
    | Eq => String.compare s t
    | c => c
    end.
Proof.
  revert b. induction a as [| x a IH]; intros [| y b] L; try discriminate L.
  - reflexivity.
  - simpl. destruct (Ascii.compare x y); try reflexivity.
    apply IH. simpl in L. congruence.
Qed.

Lemma compare_digit_char (x y : Z) :
  0 <= x < 10 -> 0 <= y < 10 ->
  Ascii.compare (digit_char x) (digit_char y) = Z.compare x y.
Proof.
  intros Hx Hy.
  assert (Cx : x = 0 \/ x = 1 \/ x = 2 \/ x = 3 \/ x = 4 \/ x = 5 \/ x = 6 \/ x = 7
               \/ x = 8 \/ x = 9) by lia.
  assert (Cy : y = 0 \/ y = 1 \/ y = 2 \/ y = 3 \/ y = 4 \/ y = 5 \/ y = 6 \/ y = 7
               \/ y = 8 \/ y = 9) by lia.
  repeat (destruct Cx as [-> | Cx]);
    try subst x; repeat (destruct Cy as [-> | Cy]); try subst y; reflexivity.
Qed.

(** Comparing pairs field by field is comparing them as one number. *)
Lemma lex_compare (a b a' b' N : Z) :
  0 <= a' < N -> 0 <= b' < N ->
  match Z.compare a b with
  | Eq => Z.compare a' b'
  | c => c
  end = Z.compare (a * N + a') (b * N + b').
Proof.
  intros Ha Hb. symmetry.
  destruct (Z.compare_spec a b) as [-> | L | G].
  - destruct (Z.compare_spec a' b') as [-> | L | G].
    + apply Z.compare_refl.
    + apply Z.compare_lt_iff. lia.
    + apply Z.compare_gt_iff. lia.
  - apply Z.compare_lt_iff. nia.
  - apply Z.compare_gt_iff. nia.
Qed.

Lemma compare_pad (w : nat) (n m : Z) :
  0 <= n < 10 ^ Z.of_nat w -> 0 <= m < 10 ^ Z.of_nat w ->
  String.compare (pad w n) (pad w m) = Z.compare n m.
Proof.
  revert n m. induction w as [| w IH]; intros n m Hn Hm.
  - change (10 ^ Z.of_nat 0) with 1 in Hn, Hm.
    assert (n = 0) by lia. assert (m = 0) by lia. subst. reflexivity.
  - rewrite Nat2Z.inj_succ, Z.pow_succ_r in Hn, Hm by lia.
    cbn [pad]. rewrite compare_app by (rewrite !length_pad; reflexivity).
    rewrite IH by (split; [apply Z.div_pos; lia | apply Z.div_lt_upper_bound; lia]).
    assert (E : String.compare (String (digit_char (n mod 10)) "")
                  (String (digit_char (m mod 10)) "")
                = Z.compare (n mod 10) (m mod 10)).
    { cbn [String.compare]. rewrite compare_digit_char by (apply Z.mod_pos_bound; lia).
      destruct (Z.compare (n mod 10) (m mod 10)); reflexivity. }
    rewrite E, (lex_compare (n / 10) (m / 10) (n mod 10) (m mod 10) 10)
      by (apply Z.mod_pos_bound; lia).
    f_equal; rewrite Z.mul_comm; symmetry; apply Z.div_mod; lia.
Qed.


Lemma compare_same_head (c : ascii) (s t : string) :
  String.compare (String c s) (String c t) = String.compare s t.
Proof.
  cbn [String.compare]. unfold Ascii.compare. rewrite N.compare_refl. reflexivity.
Qed.

(** The seven fields of a stamp compare like the fields read as one
    number. *)
Lemma compare_rendered (y m d h mi s ms y' m' d' h' mi' s' ms' : Z) :
  0 <= y <= 9999 -> 1 <= m <= 12 -> 1 <= d <= 31 -> 0 <= h <= 23 ->
  0 <= mi <= 59 -> 0 <= s <= 59 -> 0 <= ms <= 999 ->
  0 <= y' <= 9999 -> 1 <= m' <= 12 -> 1 <= d' <= 31 -> 0 <= h' <= 23 ->
  0 <= mi' <= 59 -> 0 <= s' <= 59 -> 0 <= ms' <= 999 ->
  String.compare
    (pad 4 y ++ "-" ++ pad 2 m ++ "-" ++ pad 2 d ++ "T" ++ pad 2 h ++ ":"
       ++ pad 2 mi ++ ":" ++ pad 2 s ++ "." ++ pad 3 ms ++ "Z")
    (pad 4 y' ++ "-" ++ pad 2 m' ++ "-" ++ pad 2 d' ++ "T" ++ pad 2 h' ++ ":"
       ++ pad 2 mi' ++ ":" ++ pad 2 s' ++ "." ++ pad 3 ms' ++ "Z")
  = Z.compare
      (((y * 13 + m) * 32 + d) * 86400000 + (h * 3600000 + mi * 60000 + s * 1000 + ms))
      (((y' * 13 + m') * 32 + d') * 86400000
       + (h' * 3600000 + mi' * 60000 + s' * 1000 + ms')).
Proof.
  intros Hy Hm Hd Hh Hmi Hs Hms Hy' Hm' Hd' Hh' Hmi' Hs' Hms'.
  cbn [append].
  repeat first [ rewrite compare_app by (rewrite !length_pad; reflexivity)
               | rewrite compare_same_head ].
  cbn [String.compare].
  rewrite (compare_pad 4 y y'), (compare_pad 2 m m'), (compare_pad 2 d d'),
    (compare_pad 2 h h'), (compare_pad 2 mi mi'), (compare_pad 2 s s'),
    (compare_pad 3 ms ms')
    by (simpl Z.of_nat; lia).
  assert (E : match Z.compare ms ms' with Eq => Eq | c => c end = Z.compare ms ms')
    by (destruct (Z.compare ms ms'); reflexivity).
  rewrite E.
  rewrite (lex_compare s s' ms ms' 1000) by lia.
  rewrite (lex_compare mi mi' (s * 1000 + ms) (s' * 1000 + ms') 60000) by lia.
  rewrite (lex_compare h h' _ _ 3600000) by lia.
  rewrite (lex_compare d d' _ _ 86400000) by lia.
  rewrite (lex_compare m m' _ _ (32 * 86400000)) by lia.
  rewrite (lex_compare y y' _ _ (13 * (32 * 86400000))) by lia.
  f_equal; ring.
Qed.


Lemma date_key_era (days : Z) :
  date_key (civil_from_days days)
  = (days + 719468) / 146097 * 166400 + era_key ((days + 719468) mod 146097).
Proof.
  pose proof (Z.mod_pos_bound (days + 719468) 146097 eq_refl) as Hdoe.
  unfold era_key, date_key, civil_from_days. cbv zeta.
  set (doe := (days + 719468) mod 146097) in *.
  replace (doe - 719468 + 719468) with doe by lia.
  rewrite (Z.mod_small doe 146097), (Z.div_small doe 146097) by exact Hdoe.
  set (yoe := (doe - doe / 1460 + doe / 36524 - doe / 146096) / 365).
  set (doy := doe - (365 * yoe + yoe / 4 - yoe / 100)).
  set (mp := (5 * doy + 2) / 153).
  set (m := if mp <? 10 then mp + 3 else mp - 9).
  destruct (m <=? 2); lia.
Qed.

Lemma era_grows_swept : snd (Pos.iter (sweep era_day_grows) (0, true) 146097) = true.
Proof. vm_cast_no_check (eq_refl true). Qed.

Lemma era_key_step (doe : Z) : 0 <= doe < 146097 -> era_key doe < era_key (doe + 1).
Proof.
  intros Hd. pose proof era_grows_swept as E. rewrite Pos2Nat.inj_iter in E.
  apply Z.ltb_lt.
  apply (proj2 (sweep_sound era_day_grows (Pos.to_nat 146097)) E).
  rewrite positive_nat_Z. exact Hd.
Qed.

Lemma date_key_step (days : Z) :
  date_key (civil_from_days days) < date_key (civil_from_days (days + 1)).
Proof.
  rewrite !date_key_era.
  replace (days + 1 + 719468) with (days + 719468 + 1) by lia.
  set (z := days + 719468).
  pose proof (Z.mod_pos_bound z 146097 eq_refl) as Hdoe.
  destruct (Z.eq_dec (z mod 146097) 146096) as [Last | Inner].
  - assert (Q : (z + 1) / 146097 = z / 146097 + 1 /\ (z + 1) mod 146097 = 0)
      by (Z.to_euclidean_division_equations; lia).
    destruct Q as [-> ->]. rewrite Last.
    assert (C : era_key 146096 < 166400 + era_key 0) by (vm_compute; reflexivity).
    lia.
  - assert (Q : (z + 1) / 146097 = z / 146097
                /\ (z + 1) mod 146097 = z mod 146097 + 1)
      by (Z.to_euclidean_division_equations; lia).
    destruct Q as [-> ->].
    pose proof (era_key_step (z mod 146097) Hdoe). lia.
Qed.

Lemma date_key_mono (d1 d2 : Z) :
  d1 < d2 -> date_key (civil_from_days d1) < date_key (civil_from_days d2).
Proof.
  intros L.
  assert (G : forall n : nat,
             date_key (civil_from_days d1)
             < date_key (civil_from_days (d1 + 1 + Z.of_nat n))).
  { induction n as [| n IH].
    - replace (d1 + 1 + Z.of_nat 0) with (d1 + 1) by lia. apply date_key_step.
    - replace (d1 + 1 + Z.of_nat (S n)) with (d1 + 1 + Z.of_nat n + 1) by lia.
      pose proof (date_key_step (d1 + 1 + Z.of_nat n)). lia. }
  specialize (G (Z.to_nat (d2 - d1 - 1))).
  replace (d1 + 1 + Z.of_nat (Z.to_nat (d2 - d1 - 1))) with d2 in G by lia.
  exact G.
Qed.

Lemma stamp_key_mono (t1 t2 : Z) : t1 < t2 -> stamp_key t1 < stamp_key t2.
Proof.
  intros L. unfold stamp_key, Day, TimeWithinDay, msPerDay.
  pose proof (Z.mod_pos_bound t1 86400000 eq_refl) as M1.
  pose proof (Z.mod_pos_bound t2 86400000 eq_refl) as M2.
  assert (D : t1 / 86400000 <= t2 / 86400000) by (apply Z.div_le_mono; lia).
  destruct (Z.eq_dec (t1 / 86400000) (t2 / 86400000)) as [E | N].
  - rewrite E. pose proof (Z.div_mod t1 86400000 ltac:(lia)) as E1.
    pose proof (Z.div_mod t2 86400000 ltac:(lia)) as E2. lia.
  - pose proof (date_key_mono (t1 / 86400000) (t2 / 86400000) ltac:(lia)). lia.
Qed.


Lemma four_digit_fields (t : Z) :
  four_digit_year t ->
  let '(y, m, d) := civil_from_days (Day t) in
  0 <= y <= 9999 /\ 1 <= m <= 12 /\ 1 <= d <= 31.
Proof.
  unfold four_digit_year. intros Ht.
  assert (Hd : -719528 <= Day t <= 2932896)
    by (unfold Day, msPerDay; Z.to_euclidean_division_equations; lia).
  assert (Lo : 33 <= date_key (civil_from_days (Day t))).
  { destruct (Z.eq_dec (Day t) (-719528)) as [-> | N]; [vm_compute; discriminate |].
    pose proof (date_key_mono (-719528) (Day t) ltac:(lia)) as M.
    change (date_key (civil_from_days (-719528))) with 33 in M. lia. }
  assert (Hi : date_key (civil_from_days (Day t)) <= 4159999).
  { destruct (Z.eq_dec (Day t) 2932896) as [-> | N]; [vm_compute; discriminate |].
    pose proof (date_key_mono (Day t) 2932896 ltac:(lia)) as M.
    change (date_key (civil_from_days 2932896)) with 4159999 in M. lia. }
  pose proof (civil_bounds (Day t)) as C.
  destruct (civil_from_days (Day t)) as [[y m] d].
  destruct C as (Hm & Hdd & _). unfold date_key in Lo, Hi. lia.
Qed.

Lemma compare_stamps (t1 t2 : Z) :
  four_digit_year t1 -> four_digit_year t2 ->
  String.compare (toISOString t1) (toISOString t2)
  = Z.compare (stamp_key t1) (stamp_key t2).
Proof.
  intros F1 F2. apply four_digit_fields in F1. apply four_digit_fields in F2.
  unfold toISOString, stamp_key.
  destruct (civil_from_days (Day t1)) as [[y1 m1] d1].
  destruct (civil_from_days (Day t2)) as [[y2 m2] d2].
  destruct F1 as (Hy1 & Hm1 & Hd1). destruct F2 as (Hy2 & Hm2 & Hd2).
  unfold year_string.
  replace ((0 <=? y1) && (y1 <=? 9999)) with true
    by (symmetry; apply andb_true_intro; split; apply Z.leb_le; lia).
  replace ((0 <=? y2) && (y2 <=? 9999)) with true
    by (symmetry; apply andb_true_intro; split; apply Z.leb_le; lia).
  pose proof (Z.mod_pos_bound t1 86400000 eq_refl) as M1.
  pose proof (Z.mod_pos_bound t2 86400000 eq_refl) as M2.
  unfold TimeWithinDay, msPerDay, date_key.
  set (r1 := t1 mod 86400000) in *. set (r2 := t2 mod 86400000) in *.
  rewrite compare_rendered;
    try assumption; try (Z.to_euclidean_division_equations; lia).
  f_equal; Z.to_euclidean_division_equations; lia.
Qed.

Lemma stamp_key_compare (t1 t2 : Z) :
  Z.compare (stamp_key t1) (stamp_key t2) = Z.compare t1 t2.
Proof.
  destruct (Z.compare_spec t1 t2) as [-> | L | G].
  - apply Z.compare_refl.
  - apply Z.compare_lt_iff, stamp_key_mono, L.
  - apply Z.compare_gt_iff, stamp_key_mono, G.
Qed.

(** Stamps of four-digit years compare as the instants they print. *)
Lemma toISOString_compare (t1 t2 : Z) :
  four_digit_year t1 -> four_digit_year t2 ->
  String.compare (toISOString t1) (toISOString t2) = Z.compare t1 t2.
Proof.
  intros F1 F2. rewrite (compare_stamps t1 t2 F1 F2). apply stamp_key_compare.
Qed.

Lemma toISOString_leb (t1 t2 : Z) :
  four_digit_year t1 -> four_digit_year t2 ->
  String.leb (toISOString t1) (toISOString t2) = (t1 <=? t2).
Proof.
  intros F1 F2. unfold String.leb, Z.leb.
  rewrite (toISOString_compare t1 t2 F1 F2). reflexivity.
Qed.

Lemma toISOString_injective (t1 t2 : Z) :
  four_digit_year t1 -> four_digit_year t2 ->
  toISOString t1 = toISOString t2 -> t1 = t2.
Proof.
  intros F1 F2 E. apply Z.compare_eq.
  rewrite <- (toISOString_compare t1 t2 F1 F2), E.
  clear. induction (toISOString t2) as [| c s IH]; [reflexivity |].
  rewrite compare_same_head. exact IH.
Qed.

End StampOrder.

Lemma treatments_create_inserted (B : Type) `{Backend B} (w : world B)
  (woundId data : value) :
  nullish data = false ->
  inserted (trace (Treatments.create woundId data) w)
    = [("treatments", treatment_record woundId data (clock w))].
Proof.
  intros Hd. unfold inserted. rewrite treatments_create_requests, Hd. reflexivity.
Qed.

(** Property X12.  For clocks within the years 0000 to 9999, the
    [created_at] stamps of two treatment records sent compare, in the order
    a descending read sorts by, exactly as the clocks they were taken from,
    and are equal only for equal clocks. *)
Theorem stamps_sort_like_the_clock :
  forall (B : Type) `{Backend B} (w1 w2 : world B) (id1 id2 data1 data2 : value),
    nullish data1 = false -> nullish data2 = false ->
    four_digit_year (clock w1) -> four_digit_year (clock w2) ->
    forall r1 r2,
      In ("treatments", r1) (inserted (trace (Treatments.create id1 data1) w1)) ->
      In ("treatments", r2) (inserted (trace (Treatments.create id2 data2) w2)) ->
      (value_leb (field "created_at" r1) (field "created_at" r2) = true
       <-> clock w1 <= clock w2) /\
      (field "created_at" r1 = field "created_at" r2 <-> clock w1 = clock w2).
Proof.
  intros B H w1 w2 id1 id2 data1 data2 Hd1 Hd2 F1 F2 r1 r2 I1 I2.
  rewrite (treatments_create_inserted B w1 id1 data1 Hd1) in I1.
  rewrite (treatments_create_inserted B w2 id2 data2 Hd2) in I2.
  destruct I1 as [I1 | []]. destruct I2 as [I2 | []].
  inversion I1; subst r1. inversion I2; subst r2.
  change (field "created_at" (treatment_record id1 data1 (clock w1)))
    with (JStr (toISOString (clock w1))).
  change (field "created_at" (treatment_record id2 data2 (clock w2)))
    with (JStr (toISOString (clock w2))).
  split.
  - change (value_leb (JStr (toISOString (clock w1))) (JStr (toISOString (clock w2))))
      with (String.leb (toISOString (clock w1)) (toISOString (clock w2))).
    rewrite (toISOString_leb _ _ F1 F2). apply Z.leb_le.
  - split; [| intros ->; reflexivity].
    intros E. apply (toISOString_injective _ _ F1 F2). congruence.
Qed.

Lemma stamps_sort_like_the_clock_witness :
  nullish (JObj [("technique", JStr "debridement")]) = false /\
  four_digit_year (clock at_ward) /\ four_digit_year (clock (tick 1700000000124 at_ward)) /\
  clock at_ward <= clock (tick 1700000000124 at_ward) /\
  value_leb (JStr (toISOString (clock at_ward)))
            (JStr (toISOString (clock (tick 1700000000124 at_ward)))) = true.
Proof.
  assert (F1 : four_digit_year (clock at_ward)) by (unfold four_digit_year; simpl; lia).
  assert (F2 : four_digit_year (clock (tick 1700000000124 at_ward)))
    by (unfold four_digit_year; simpl; lia).
  assert (L : clock at_ward <= clock (tick 1700000000124 at_ward)) by (simpl; lia).
  split; [reflexivity | split; [exact F1 | split; [exact F2 | split; [exact L |]]]].
  apply (proj1 (@stamps_sort_like_the_clock Stub.db echoing at_ward
                  (tick 1700000000124 at_ward) (JNum (Int 1)) (JNum (Int 1))
                  (JObj [("technique", JStr "debridement")])
                  (JObj [("technique", JStr "debridement")])
                  eq_refl eq_refl F1 F2 _ _
                  (or_introl eq_refl) (or_introl eq_refl))).
  exact L.
Defined.

Section LaterFirst.

Lemma sorted_puts_first (R : value -> value -> Prop) (l : list value) (a b : value) :
  StronglySorted R l -> In a l -> In b l -> ~ R a b -> a <> b ->
  comes_before b a l.
Proof.
  unfold comes_before. induction 1 as [| x l S IH F]; intros Ia Ib N D; [destruct Ia |].
  rewrite Forall_forall in F.
  destruct Ia as [-> | Ia], Ib as [-> | Ib].
  - contradiction.
  - destruct N. apply F, Ib.
  - destruct (in_split _ _ Ia) as (l2 & l3 & ->).
    exists [], l2, l3. reflexivity.
  - destruct (IH Ia Ib N D) as (l1 & l2 & l3 & ->).
    exists (x :: l1), l2, l3. reflexivity.
Qed.

End LaterFirst.

(** Property X13.  Against the stub, of two treatments recorded for one
    wound, the one recorded at the later clock stands before the other in
    [listByWound]. *)
Theorem later_treatment_is_listed_first :
  forall (w : world Stub.db) (woundId data1 data2 : value) (t2 : Z),
    nullish data1 = false -> nullish data2 = false ->
    four_digit_year (clock w) -> four_digit_year t2 -> clock w < t2 ->
    exists row1 w1 row2 w2 rows,
      Treatments.create woundId data1 w = (Fulfilled row1, w1) /\
      Treatments.create woundId data2 (tick t2 w1) = (Fulfilled row2, w2) /\
      result (Treatments.listByWound woundId) w2 = Fulfilled (JArr rows) /\
      comes_before row2 row1 rows.
Proof.
  intros w woundId data1 data2 t2 Hd1 Hd2 F1 F2 L.
  pose proof (treatments_create_run w woundId data1 Hd1) as E1. cbv zeta in E1.
  unfold treatment_record in E1. rewrite stub_created in E1.
  match type of E1 with _ = (Fulfilled ?r, ?w') => set (row1 := r) in *; set (w1 := w') in * end.
  pose proof (treatments_create_run (tick t2 w1) woundId data2 Hd2) as E2. cbv zeta in E2.
  unfold treatment_record in E2. rewrite stub_created in E2.
  match type of E2 with _ = (Fulfilled ?r, ?w') => set (row2 := r) in *; set (w2 := w') in * end.
  exists row1, w1, row2, w2.
  eexists. split; [exact E1 | split; [exact E2 |]].
  split; [eapply stub_listing_result, treatments_listByWound_run |].
  apply (sorted_puts_first
           (fun r1 r2 => value_leb (field "created_at" r2) (field "created_at" r1) = true)).
  - apply descending_is_newest_first, sort_Sorted.
  - subst w2. unfold after. cbn [server]. unfold tick. cbn [server].
    apply (listing_after_insert _ "treatments" "wound_id" woundId). left.
    subst w1. unfold after. cbn [server].
    apply (listing_after_insert _ "treatments" "wound_id" woundId). right.
    split; reflexivity.
  - subst w2. unfold after. cbn [server]. unfold tick. cbn [server].
    apply (listing_after_insert _ "treatments" "wound_id" woundId). right.
    split; reflexivity.
  - change (field "created_at" row1) with (JStr (toISOString (clock w))).
    change (field "created_at" row2) with (JStr (toISOString t2)).
    change (value_leb (JStr (toISOString t2)) (JStr (toISOString (clock w))))
      with (String.leb (toISOString t2) (toISOString (clock w))).
    rewrite (toISOString_leb _ _ F2 F1). intros C. apply Z.leb_le in C. lia.
  - intros C. assert (E : field "created_at" row1 = field "created_at" row2)
      by (rewrite C; reflexivity).
    change (field "created_at" row1) with (JStr (toISOString (clock w))) in E.
    change (field "created_at" row2) with (JStr (toISOString t2)) in E.
    assert (clock w = t2) by (apply (toISOString_injective _ _ F1 F2); congruence).
    lia.
Qed.

Lemma later_treatment_is_listed_first_witness :
  nullish (JObj [("technique", JStr "debridement")]) = false /\
  nullish (JObj [("technique", JStr "dressing change")]) = false /\
  four_digit_year (clock at_ward) /\ four_digit_year 1700000060000 /\
  clock at_ward < 1700000060000 /\
  exists row1 w1 row2 w2 rows,
    Treatments.create (JNum (Int 1)) (JObj [("technique", JStr "debridement")]) at_ward
      = (Fulfilled row1, w1) /\
    Treatments.create (JNum (Int 1)) (JObj [("technique", JStr "dressing change")])
      (tick 1700000060000 w1) = (Fulfilled row2, w2) /\
    result (Treatments.listByWound (JNum (Int 1))) w2 = Fulfilled (JArr rows) /\
    comes_before row2 row1 rows.
Proof.
  assert (F1 : four_digit_year (clock at_ward)) by (unfold four_digit_year; simpl; lia).
  assert (F2 : four_digit_year 1700000060000) by (unfold four_digit_year; lia).
  assert (L : clock at_ward < 1700000060000) by (simpl; lia).
  split; [reflexivity | split; [reflexivity |]].
  split; [exact F1 | split; [exact F2 | split; [exact L |]]].
  exact (later_treatment_is_listed_first at_ward (JNum (Int 1))
           (JObj [("technique", JStr "debridement")])
           (JObj [("technique", JStr "dressing change")])
           1700000060000 eq_refl eq_refl F1 F2 L).
Defined.
